(** * Ping monitoring service: scheduler, sampler and store

    A shallow embedding of [modules/task_manager.py], [modules/ping_monitor.py],
    [modules/data_manager.py] and the two routes of [app.py] that create jobs
    and trigger cleanup, followed by the properties of the specification that
    were checked against them.

    Conventions of the embedding.
    - A [datetime] is a [Z]: microseconds since the epoch.  [isoformat] followed
      by [fromisoformat] is the identity on such values, so the ISO strings the
      code stores in its dictionaries are kept as the [Z] they denote.
    - A latency is a binary64 [float], as in Python.
    - A Python [dict] used as a map is a [gmap]; a dictionary with a fixed set
      of keys is a record, optional keys are [option] fields.
    - Every reading of the clock, every generated identifier and every probe
      answer is an argument supplied by the environment. *)

From Stdlib Require Import Ascii String PrimFloat Uint63.
From stdpp Require Import gmap strings list fin_maps sorting.

Open Scope Z_scope.

(** ** Time *)

Definition datetime := Z.

(** [timedelta(hours=h)] and [timedelta(days=d)], in microseconds. *)
Definition timedelta_hours (h : Z) : Z := h * 3600 * 1000000.
Definition timedelta_days (d : Z) : Z := d * 86400 * 1000000.

(** The durations that [timedelta(hours=h)] accepts: it normalises to a
    number of days, [h // 24], and raises [OverflowError] when that number
    leaves the interval of plus or minus 999999999.  [timedelta_hours]
    itself has no such limit; the statements that need the object to exist
    take this range as a hypothesis. *)
Definition timedelta_in_range (h : Z) : Prop :=
  -999999999 <= h `div` 24 <= 999999999.

(** ** File names and [Path.glob] *)

(** [fnmatch]-style matching of one path component: [*] matches any run of
    characters and [?] any single one; every other character stands for
    itself.  Bracket classes are not modelled: the constant patterns of
    the program have none, and a pattern built from a task id agrees with
    [Path.glob] when the id is plain ([Store.plain_id] below). *)
Fixpoint fnmatch (pat name : list ascii) : bool :=
  match pat with
  | [] => match name with [] => true | _ => false end
  | p :: pat' =>
      if Ascii.eqb p "*"%char then
        (fix star (n : list ascii) : bool :=
           fnmatch pat' n ||
           match n with [] => false | _ :: n' => star n' end) name
      else
        match name with
        | [] => false
        | c :: name' =>
            (Ascii.eqb p "?"%char || Ascii.eqb p c) && fnmatch pat' name'
        end
  end.

Definition glob_match (pattern name : string) : bool :=
  fnmatch (list_ascii_of_string pattern) (list_ascii_of_string name).

(** [sorted(files)] on paths of one directory: lexicographic on the names. *)
Definition name_le (a b : string) : Prop := String.leb a b = true.

#[global] Instance name_le_dec : RelDecision name_le.
Proof. intros a b. unfold name_le. apply _. Defined.

Definition sorted_names (l : list string) : list string := merge_sort name_le l.

(** ** Samples *)

Module Sample.

(** The ['status'] column of a data point. *)
Inductive outcome := success | timeout | error.

#[global] Instance outcome_eq_dec : EqDecision outcome.
Proof. solve_decision. Defined.

(** One data point: the dictionary built in [_ping_loop].  The key ['error']
    is present on error points only. *)
Record data_point := {
  timestamp : datetime;
  target : string;
  response_time : option float;
  status : outcome;
  error_text : option string
}.

(** The columns of a row that [pd.read_csv] returns as the text that was
    written: the time stamp and the status.  A target and a latency are
    parsed again when the file is read. *)
Definition as_text (p : data_point) : datetime * outcome :=
  (timestamp p, status p).

End Sample.

(** ** The store: three directories under [data/] *)

Module Store.

(** A file: what it holds and its last-modified time. *)
Record file (A : Type) := File { content : A; st_mtime : datetime }.
Arguments File {A} _ _.
Arguments content {A} _.
Arguments st_mtime {A} _.

(** The statistics document written by [_generate_report]. *)
Record stats := {
  total_pings : nat;
  successful_pings : nat;
  timeout_pings : nat;
  error_pings : nat;
  avg_response_time : option float;
  min_response_time : option float;
  max_response_time : option float;
  availability : float
}.

(** [data/raw] holds the sample series (CSV rows), [data/reports] the JSON
    reports, [data/processed] the charts and exports (contents not
    modelled).  Each directory maps a file name to a file. *)
Record fs := {
  raw : gmap string (file (list Sample.data_point));
  reports : gmap string (file stats);
  processed : gmap string (file unit)
}.

Definition empty_fs : fs := {| raw := ∅; reports := ∅; processed := ∅ |}.

(** The names that denote a file directly inside a directory: no path
    separator, no NUL character, at most 255 bytes.  Writing under any
    other name fails in the code; the model's directories accept every
    name, so the statements about what is written take this as a
    hypothesis. *)
Definition plain_name (name : string) : Prop :=
  Forall (λ c, c ≠ "/"%char ∧ c ≠ "000"%char) (list_ascii_of_string name)
  ∧ (String.length name <= 255)%nat.

(** The task ids that stand for themselves in the pattern
    [ping_<task_id>_*.csv], so that the pattern reads the same for
    [fnmatch] above as for [Path.glob]: no bracket (which would open a
    character class), no star (a doubled star is refused by [Path.glob]),
    no question mark (which stands for a character, not for a byte), no
    separator, no NUL character. *)
Definition plain_id (task_id : string) : Prop :=
  Forall (λ c, c ≠ "["%char ∧ c ≠ "*"%char ∧ c ≠ "?"%char
               ∧ c ≠ "/"%char ∧ c ≠ "000"%char)
         (list_ascii_of_string task_id).

(** [dir.glob(pattern)]: the names in the directory that match. *)
Definition glob {A} (dir : gmap string (file A)) (pattern : string) : list string :=
  filter (λ n, glob_match pattern n = true) (map_to_list dir).*1.

(** *** [DataManager] ([modules/data_manager.py]) *)

(** [load_task_data]: the series of every file [ping_<task_id>_*.csv] of
    [data/raw], in the order of the sorted file names, or [None] when no
    file matches.  Every file of the model reads back as the rows written
    to it, so the [except] branch around [pd.read_csv] is never taken; in
    the code a series with an error row under a four-column header does
    not read back, and the statements about loading are limited to series
    without error rows. *)
Definition load_task_data (d : fs) (task_id : string)
  : option (list Sample.data_point) :=
  let files := glob (raw d) ("ping_" +:+ task_id +:+ "_*.csv") in
  match files with
  | [] => None
  | _ =>
      let dfs := omap (λ n, content <$> raw d !! n) (sorted_names files) in
      match dfs with
      | [] => None
      | _ => Some (concat dfs)
      end
  end.

(** [get_task_report]: the document [report_<task_id>.json], if it exists. *)
Definition report_name (task_id : string) : string :=
  "report_" +:+ task_id +:+ ".json".

Definition get_task_report (d : fs) (task_id : string) : option stats :=
  content <$> reports d !! report_name task_id.

(** One cleaning loop of [clean_old_data]:
    [for file in dir.glob(pattern): if file.stat().st_mtime < cutoff: file.unlink()]. *)
Definition unlink_if_older {A} (cutoff : datetime)
    (dir : gmap string (file A)) (name : string) : gmap string (file A) :=
  match dir !! name with
  | Some f => if st_mtime f <? cutoff then delete name dir else dir
  | None => dir
  end.

Definition unlink_older {A} (dir : gmap string (file A)) (pattern : string)
    (cutoff : datetime) : gmap string (file A) :=
  foldl (unlink_if_older cutoff) dir (glob dir pattern).

(** [clean_old_data(days_to_keep)] at time [now]. *)
Definition clean_old_data (days_to_keep : Z) (now : datetime) (d : fs) : fs :=
  let cutoff_date := now - timedelta_days days_to_keep in
  {| raw := unlink_older (raw d) "*.csv" cutoff_date;
     reports := unlink_older (reports d) "*.json" cutoff_date;
     processed := unlink_older (processed d) "*.png" cutoff_date |}.

End Store.

(** ** The sampler ([modules/ping_monitor.py]) *)

Module PingMonitor.

Import Sample.

(** The attributes of a [PingMonitor] object.  [data_file] is the name of
    the series inside [data/raw]; the thread handle is not modelled. *)
Record t := {
  target_ip : string;
  duration : Z;
  task_id : string;
  is_running : bool;
  start_time : option datetime;
  data_file : option string
}.

(** [PingMonitor(target_ip, duration_hours, task_id)]. *)
Definition init (target_ip : string) (duration_hours : Z) (task_id : string) : t :=
  {| target_ip := target_ip;
     duration := timedelta_hours duration_hours;
     task_id := task_id;
     is_running := false;
     start_time := None;
     data_file := None |}.

(** [start]: raises the flag and stamps the start time (the sampling
    thread it launches is [_ping_loop] below). *)
Definition start (now : datetime) (m : t) : t :=
  {| target_ip := target_ip m; duration := duration m; task_id := task_id m;
     is_running := true; start_time := Some now; data_file := data_file m |}.

(** [stop]: clears the flag; the bounded [join] changes no state. *)
Definition stop (m : t) : t :=
  {| target_ip := target_ip m; duration := duration m; task_id := task_id m;
     is_running := false; start_time := start_time m; data_file := data_file m |}.

(** What [ping3.ping(target, timeout=2, unit='ms')] hands back: a delay in
    milliseconds, [None] when no reply came within the timeout, [False]
    when the host could not be reached at all. *)
Inductive ping_value := Delay (ms : float) | PyNone | PyFalse.

(** One probe: it returns a value or raises an exception with a message. *)
Inductive probe := Returns (v : ping_value) | Raises (msg : string).

(** Python truth value of the probe's answer: [None], [False] and the
    float zero are false, every other float is true. *)
Definition truthy (v : ping_value) : bool :=
  match v with
  | Delay ms => negb (PrimFloat.eqb ms 0%float)
  | PyNone => false
  | PyFalse => false
  end.

(** [response_time if response_time else None]. *)
Definition latency_of (v : ping_value) : option float :=
  match v with
  | Delay ms => if truthy v then Some ms else None
  | _ => None
  end.

(** What the environment supplies each time the loop guard is evaluated:
    the flag as read, the clock, and the answer of the probe issued if the
    guard lets the iteration run. *)
Record tick := Tick { flag : bool; now : datetime; answer : probe }.

Definition data_file_name (target_ip stamp : string) : string :=
  "ping_" +:+ target_ip +:+ "_" +:+ stamp +:+ ".csv".

(** [_save_data]: append the rows to the series, creating the file when it
    does not exist.  (The CSV header is written on creation only, so a
    file reads back as the concatenation of the appended batches.)  The
    write is taken to succeed: this is so for the plain names
    ([Store.plain_name]), not for a name made from a target that contains
    a separator. *)
Definition _save_data (file_name : string) (now : datetime)
    (data_points : list data_point) (d : Store.fs) : Store.fs :=
  let old := match Store.raw d !! file_name with
             | Some f => Store.content f
             | None => []
             end in
  {| Store.raw := <[file_name := Store.File (old ++ data_points) now]> (Store.raw d);
     Store.reports := Store.reports d;
     Store.processed := Store.processed d |}.

(** The state of the loop: the in-memory buffer and the store. *)
Definition loop_state : Type := list data_point * Store.fs.

(** The body of the [while] loop of [_ping_loop], the [sleep] apart.
    Only the probe is taken to raise inside the [try] block: the save of
    line 62 does not fail when the series' name is plain
    ([Store.plain_name]).  One reading of the clock per tick serves as the
    guard's clock and as the stamp of the row; the code reads the clock
    again after the probe, so the statements about rows compare them
    without their stamps ([untimed] below). *)
Definition loop_body (m : t) (file_name : string) (k : tick) (st : loop_state)
  : loop_state :=
  let '(data_points, d) := st in
  match answer k with
  | Returns response_time =>
      let data_point :=
        {| timestamp := now k;
           target := target_ip m;
           response_time := latency_of response_time;
           status := if truthy response_time then success else timeout;
           error_text := None |} in
      let data_points := data_points ++ [data_point] in
      if (10 <=? length data_points)%nat
      then ([], _save_data file_name (now k) data_points d)
      else (data_points, d)
  | Raises e =>
      let error_point :=
        {| timestamp := now k;
           target := target_ip m;
           response_time := None;
           status := error;
           error_text := Some e |} in
      (data_points ++ [error_point], d)
  end.

(** [while self.is_running and datetime.now() < end_time: ...].  The trace
    lists the environment's answers guard by guard; the loop ends at the
    first guard that fails, and a trace that runs out stands for the flag
    found cleared. *)
Fixpoint sampling (m : t) (file_name : string) (end_time : datetime)
    (trace : list tick) (st : loop_state) : loop_state :=
  match trace with
  | [] => st
  | k :: trace' =>
      if flag k && (now k <? end_time)
      then sampling m file_name end_time trace' (loop_body m file_name k st)
      else st
  end.

(** *** Report *)

Definition float_of_nat (n : nat) : float :=
  PrimFloat.of_uint63 (Uint63.of_Z (Z.of_nat n)).

Definition count_status (o : outcome) (df : list data_point) : nat :=
  length (filter (λ p, status p = o) df).

(** The non-null cells of the ['response_time'] column. *)
Definition latencies (df : list data_point) : list float :=
  omap response_time df.

(** [Series.mean()], [min()] and [max()] skip the null cells and are null on
    a column without values.  The mean is taken as the left-to-right sum
    over the count (the order of summation of the library may differ; no
    statement below gives the value of a mean). *)
Definition mean (l : list float) : option float :=
  match l with
  | [] => None
  | _ => Some (foldl PrimFloat.add 0%float l / float_of_nat (length l))%float
  end.

Definition fmin (a b : float) : float := if PrimFloat.ltb b a then b else a.
Definition fmax (a b : float) : float := if PrimFloat.ltb a b then b else a.

Definition minimum (l : list float) : option float :=
  match l with [] => None | x :: l' => Some (foldl fmin x l') end.

Definition maximum (l : list float) : option float :=
  match l with [] => None | x :: l' => Some (foldl fmax x l') end.

Inductive report_outcome :=
| Skipped                       (* early [return]: no series on disk *)
| ZeroDivisionError             (* [len(df)] is zero *)
| Written (d : Store.fs).       (* chart and report saved *)

Definition chart_name (task_id : string) : string := "chart_" +:+ task_id +:+ ".png".

(** [_generate_report], run at time [now].  The series is taken to read
    back as it was written; the statements about the figures of a report
    are limited to series without error rows, which do. *)
Definition _generate_report (m : t) (now : datetime) (d : Store.fs)
  : report_outcome :=
  match data_file m with
  | None => Skipped
  | Some file_name =>
      match Store.raw d !! file_name with
      | None => Skipped
      | Some f =>
          let df := Store.content f in
          match length df with
          | O => ZeroDivisionError
          | S _ =>
              let stats :=
                {| Store.total_pings := length df;
                   Store.successful_pings := count_status success df;
                   Store.timeout_pings := count_status timeout df;
                   Store.error_pings := count_status error df;
                   Store.avg_response_time := mean (latencies df);
                   Store.min_response_time := minimum (latencies df);
                   Store.max_response_time := maximum (latencies df);
                   Store.availability :=
                     (float_of_nat (count_status success df)
                      / float_of_nat (length df) * 100)%float |} in
              Written
                {| Store.raw := Store.raw d;
                   Store.reports :=
                     <[Store.report_name (task_id m) := Store.File stats now]>
                       (Store.reports d);
                   Store.processed :=
                     <[chart_name (task_id m) := Store.File () now]>
                       (Store.processed d) |}
          end
      end
  end.

(** Either nothing was saved since [d0], or the series exists and holds
    rows. *)
Definition untouched_or_filled (file_name : string) (d0 d : Store.fs) : Prop :=
  d = d0 ∨ ∃ f, Store.raw d !! file_name = Some f ∧ Store.content f ≠ [].

Definition set_data_file (file_name : string) (m : t) : t :=
  {| target_ip := target_ip m; duration := duration m; task_id := task_id m;
     is_running := is_running m; start_time := start_time m;
     data_file := Some file_name |}.

(** The store once the loop has exited and the rest of the buffer has been
    saved ([if data_points: self._save_data(data_points)]). *)
Definition after_sampling (m : t) (file_name : string) (end_time : datetime)
    (trace : list tick) (exit_time : datetime) (d : Store.fs) : Store.fs :=
  let '(data_points, d1) := sampling m file_name end_time trace ([], d) in
  match data_points with
  | [] => d1
  | _ => _save_data file_name exit_time data_points d1
  end.

(** [_ping_loop], for a monitor that was started: [stamp] is the formatted
    creation time that names the series, [exit_time] the clock when the
    loop is left.  Returns the monitor, the store and what report
    generation did. *)
Definition _ping_loop (m : t) (stamp : string) (trace : list tick)
    (exit_time : datetime) (d : Store.fs) : t * Store.fs * report_outcome :=
  let end_time := default 0 (start_time m) + duration m in
  let file_name := data_file_name (target_ip m) stamp in
  let m := set_data_file file_name m in
  let d2 := after_sampling m file_name end_time trace exit_time d in
  match _generate_report m exit_time d2 with
  | Written d3 => (m, d3, Written d3)
  | r => (m, d2, r)
  end.

(** *** The samples of a run *)

(** The dictionary the loop body builds from one probe answer. *)
Definition point_of (m : t) (k : tick) : data_point :=
  match answer k with
  | Returns response_time =>
      {| timestamp := now k;
         target := target_ip m;
         response_time := latency_of response_time;
         status := if truthy response_time then success else timeout;
         error_text := None |}
  | Raises e =>
      {| timestamp := now k;
         target := target_ip m;
         response_time := None;
         status := error;
         error_text := Some e |}
  end.

(** The ticks whose iteration ran: those before the first guard that fails. *)
Fixpoint executed (end_time : datetime) (trace : list tick) : list tick :=
  match trace with
  | [] => []
  | k :: trace' =>
      if flag k && (now k <? end_time) then k :: executed end_time trace' else []
  end.

(** The rows of a series on disk; none when the file does not exist. *)
Definition series (file_name : string) (d : Store.fs) : list data_point :=
  match Store.raw d !! file_name with
  | Some f => Store.content f
  | None => []
  end.

(** A row without its time stamp.  (The code stamps a row with a reading of
    the clock made after the probe; the model stamps it with the reading of
    the loop guard.) *)
Definition untimed (p : data_point)
  : string * option float * outcome * option string :=
  (target p, response_time p, status p, error_text p).

(** A latency is present on successes only, an error text on errors only. *)
Definition well_formed (p : data_point) : Prop :=
  (status p = success ↔ is_Some (response_time p))
  ∧ (status p = error ↔ is_Some (error_text p)).

End PingMonitor.

(** ** The scheduler ([modules/task_manager.py]) *)

Module TaskManager.

(** The ['status'] of a task record. *)
Inductive status_t := running | completed | stopped.

#[global] Instance status_eq_dec : EqDecision status_t.
Proof. solve_decision. Defined.

(** A record of [task_history].  ['elapsed'] and ['end_time'] are absent
    until they are first written; ['elapsed'] is kept as the whole seconds
    its string shows. *)
Record task_info := {
  id : string;
  target_ip : string;
  duration_hours : Z;
  start_time : datetime;
  status : status_t;
  progress : float;
  elapsed : option Z;
  end_time : option datetime
}.

(** The manager.  [active_tasks] maps a task id to a monitor object, that
    is to its address in [objects], the heap of [PingMonitor] objects: the
    watcher of a task holds the same address.  A record appended to
    [completed_tasks] is the record of [task_history] as it is at that
    moment. *)
Record t := {
  max_concurrent_tasks : Z;
  active_tasks : gmap string nat;
  completed_tasks : list task_info;
  task_history : gmap string task_info;
  objects : list PingMonitor.t
}.

(** [TaskManager(max_concurrent_tasks)]. *)
Definition init (max_concurrent_tasks : Z) : t :=
  {| max_concurrent_tasks := max_concurrent_tasks;
     active_tasks := ∅;
     completed_tasks := [];
     task_history := ∅;
     objects := [] |}.

Inductive exn :=
| MaxConcurrentTasks            (* Exception("达到最大并发任务数") *)
| KeyError (key : string)
| ZeroDivision
| ValueError.

(** The thread [_monitor_task(task_id, monitor, duration_hours)], with the
    clock it read when it started. *)
Record watcher := {
  w_task_id : string;
  w_monitor : nat;
  w_duration_hours : Z;
  w_start_time : datetime
}.

Definition w_end_time (w : watcher) : datetime :=
  w_start_time w + timedelta_hours (w_duration_hours w).

Definition set_objects (o : list PingMonitor.t) (tm : t) : t :=
  {| max_concurrent_tasks := max_concurrent_tasks tm;
     active_tasks := active_tasks tm;
     completed_tasks := completed_tasks tm;
     task_history := task_history tm;
     objects := o |}.

(** *** [create_task] *)

(** The test of line 18, made before the lock is taken. *)
Definition at_capacity (tm : t) : bool :=
  Z.of_nat (size (active_tasks tm)) >=? max_concurrent_tasks tm.

(** [str(uuid.uuid4())[:8]]. *)
Definition short_id (uuid : string) : string := String.substring 0 8 uuid.

(** Lines 25 to 48: build the monitor, enter both registries under the
    lock, start the monitor and its watcher.  One reading [now] stands for
    the clocks of the record, of the monitor and of the watcher;
    [register_at] below keeps the three apart.  Building the monitor fails
    in the code for a duration outside [timedelta_in_range]. *)
Definition register (target : string) (hours : Z) (task_id : string)
    (now : datetime) (tm : t) : watcher * t :=
  let monitor := length (objects tm) in
  let info :=
    {| id := task_id; target_ip := target; duration_hours := hours;
       start_time := now; status := running; progress := 0%float;
       elapsed := None; end_time := None |} in
  ({| w_task_id := task_id; w_monitor := monitor;
      w_duration_hours := hours; w_start_time := now |},
   {| max_concurrent_tasks := max_concurrent_tasks tm;
      active_tasks := <[task_id := monitor]> (active_tasks tm);
      completed_tasks := completed_tasks tm;
      task_history := <[task_id := info]> (task_history tm);
      objects :=
        objects tm ++
        [PingMonitor.start now (PingMonitor.init target hours task_id)] |}).

(** [create_task(target_ip, duration_hours)]: the new id and the watcher
    thread it launched, or the exception. *)
Definition create_task (target : string) (hours : Z) (uuid : string)
    (now : datetime) (tm : t) : (exn + string * watcher) * t :=
  if at_capacity tm then (inl MaxConcurrentTasks, tm)
  else
    let task_id := short_id uuid in
    let '(w, tm') := register target hours task_id now tm in
    (inr (task_id, w), tm').

(** The same call with its three clock readings kept apart: [recorded] is
    read at line 35 for the record, [started] in [PingMonitor.start] for
    the monitor, [watched] at line 54 by the watcher thread.  [register]
    and [create_task] above are the case where the three coincide. *)
Definition register_at (target : string) (hours : Z) (task_id : string)
    (recorded started watched : datetime) (tm : t) : watcher * t :=
  let monitor := length (objects tm) in
  let info :=
    {| id := task_id; target_ip := target; duration_hours := hours;
       start_time := recorded; status := running; progress := 0%float;
       elapsed := None; end_time := None |} in
  ({| w_task_id := task_id; w_monitor := monitor;
      w_duration_hours := hours; w_start_time := watched |},
   {| max_concurrent_tasks := max_concurrent_tasks tm;
      active_tasks := <[task_id := monitor]> (active_tasks tm);
      completed_tasks := completed_tasks tm;
      task_history := <[task_id := info]> (task_history tm);
      objects :=
        objects tm ++
        [PingMonitor.start started (PingMonitor.init target hours task_id)] |}).

Definition create_task_at (target : string) (hours : Z) (uuid : string)
    (recorded started watched : datetime) (tm : t)
  : (exn + string * watcher) * t :=
  if at_capacity tm then (inl MaxConcurrentTasks, tm)
  else
    let task_id := short_id uuid in
    let '(w, tm') := register_at target hours task_id recorded started watched tm in
    (inr (task_id, w), tm').

(** *** [stop_task] *)

(** [monitor.stop()] on the object at an address. *)
Definition stop_object (monitor : nat) (tm : t) : t :=
  set_objects (alter PingMonitor.stop monitor (objects tm)) tm.

Definition mark_stopped (now : datetime) (i : task_info) : task_info :=
  {| id := id i; target_ip := target_ip i; duration_hours := duration_hours i;
     start_time := start_time i; status := stopped; progress := progress i;
     elapsed := elapsed i; end_time := Some now |}.

Definition stop_task (task_id : string) (now : datetime) (tm : t)
  : (exn + bool) * t :=
  match active_tasks tm !! task_id with
  | Some monitor =>
      let tm1 := stop_object monitor tm in
      match task_history tm1 !! task_id with
      | None => (inl (KeyError task_id), tm1)
      | Some i =>
          (inr true,
           {| max_concurrent_tasks := max_concurrent_tasks tm1;
              active_tasks := delete task_id (active_tasks tm1);
              completed_tasks := completed_tasks tm1;
              task_history := <[task_id := mark_stopped now i]> (task_history tm1);
              objects := objects tm1 |})
      end
  | None => (inr false, tm)
  end.

(** [get_task_status]: [None] stands for the empty dictionary. *)
Definition get_task_status (task_id : string) (tm : t) : option task_info :=
  task_history tm !! task_id.

(** *** [_monitor_task], the watcher *)

Definition float_of_Z (z : Z) : float :=
  if z <? 0 then (- PrimFloat.of_uint63 (Uint63.of_Z (- z)))%float
  else PrimFloat.of_uint63 (Uint63.of_Z z).

(** [round(x, 2)], taken as the nearest multiple of a hundredth obtained
    by scaling (2^52 is added and removed to round to an integer).  This
    can differ from [round] in the last digit; no statement below gives
    the value of a progress. *)
Definition rint (x : float) : float :=
  if PrimFloat.ltb x 0
  then (- ((- x + 4503599627370496) - 4503599627370496))%float
  else ((x + 4503599627370496) - 4503599627370496)%float.

Definition round2 (x : float) : float := (rint (x * 100) / 100)%float.

(** [min(100, elapsed.total_seconds() / (duration_hours * 3600) * 100)],
    rounded; the division raises when the divisor is zero. *)
Definition progress_of (elapsed_us hours : Z) : exn + float :=
  if hours * 3600 =? 0 then inl ZeroDivision
  else
    let p := (float_of_Z elapsed_us / 1000000
              / float_of_Z (hours * 3600) * 100)%float in
    inr (round2 (if PrimFloat.ltb p 100 then p else 100%float)).

Definition set_progress (p : float) (seconds : Z) (i : task_info) : task_info :=
  {| id := id i; target_ip := target_ip i; duration_hours := duration_hours i;
     start_time := start_time i; status := status i; progress := p;
     elapsed := Some seconds; end_time := end_time i |}.

Definition mark_completed (now : datetime) (i : task_info) : task_info :=
  {| id := id i; target_ip := target_ip i; duration_hours := duration_hours i;
     start_time := start_time i; status := completed; progress := 100%float;
     elapsed := elapsed i; end_time := Some now |}.

(** Lines 68 to 71, under the lock. *)
Definition update_progress (task_id : string) (p : float) (seconds : Z)
    (tm : t) : t :=
  {| max_concurrent_tasks := max_concurrent_tasks tm;
     active_tasks := active_tasks tm;
     completed_tasks := completed_tasks tm;
     task_history := alter (set_progress p seconds) task_id (task_history tm);
     objects := objects tm |}.

(** Lines 76 to 85, the block that follows the loop, under the lock.  The
    record is appended by value; the code appends the dictionary itself,
    which [task_history] goes on sharing until the id is issued again. *)
Definition finish (task_id : string) (now : datetime) (tm : t) : t :=
  let active := delete task_id (active_tasks tm) in
  match task_history tm !! task_id with
  | Some i =>
      let i' := mark_completed now i in
      {| max_concurrent_tasks := max_concurrent_tasks tm;
         active_tasks := active;
         completed_tasks := completed_tasks tm ++ [i'];
         task_history := <[task_id := i']> (task_history tm);
         objects := objects tm |}
  | None =>
      {| max_concurrent_tasks := max_concurrent_tasks tm;
         active_tasks := active;
         completed_tasks := completed_tasks tm;
         task_history := task_history tm;
         objects := objects tm |}
  end.

Definition monitor_is_running (monitor : nat) (tm : t) : bool :=
  match objects tm !! monitor with
  | Some m => PingMonitor.is_running m
  | None => false
  end.

(** What one wake-up of the watcher thread leads to. *)
Inductive wake :=
| Sleeps (tm : t)               (* progress written, [time.sleep(5)] *)
| Ends (tm : t)                 (* loop left, final block run *)
| Dies (e : exn) (tm : t).      (* exception in the thread *)

(** One evaluation of [while monitor.is_running:] at time [current_time],
    with what follows until the thread sleeps again or ends.  The final
    block is stamped here with [current_time]; [_monitor_task_at] below
    keeps the reading of line 82 apart. *)
Definition _monitor_task (w : watcher) (current_time : datetime) (tm : t) : wake :=
  if monitor_is_running (w_monitor w) tm then
    if current_time >=? w_end_time w then
      Ends (finish (w_task_id w) current_time (stop_object (w_monitor w) tm))
    else
      let elapsed := current_time - w_start_time w in
      match progress_of elapsed (w_duration_hours w) with
      | inl e => Dies e tm
      | inr p => Sleeps (update_progress (w_task_id w) p (elapsed / 1000000) tm)
      end
  else Ends (finish (w_task_id w) current_time tm).

(** The same wake-up with the clock of line 82 kept apart: the final block
    stamps [end_time] with a reading of its own, [final_time], taken after
    the comparison with the deadline (and after [monitor.stop()]).
    [_monitor_task] above is the case where both readings coincide. *)
Definition _monitor_task_at (w : watcher) (current_time final_time : datetime)
    (tm : t) : wake :=
  if monitor_is_running (w_monitor w) tm then
    if current_time >=? w_end_time w then
      Ends (finish (w_task_id w) final_time (stop_object (w_monitor w) tm))
    else
      let elapsed := current_time - w_start_time w in
      match progress_of elapsed (w_duration_hours w) with
      | inl e => Dies e tm
      | inr p => Sleeps (update_progress (w_task_id w) p (elapsed / 1000000) tm)
      end
  else Ends (finish (w_task_id w) final_time tm).

Definition wake_state (r : wake) : t :=
  match r with Sleeps tm | Ends tm | Dies _ tm => tm end.

(** *** [cleanup_old_tasks] *)

(** [task.get('end_time', task.get('start_time', ''))], parsed. *)
Definition task_time (i : task_info) : datetime :=
  default (start_time i) (end_time i).

(** The ids collected by the loop of lines 137 to 141. *)
Definition task_ids_to_remove (cutoff_date : datetime)
    (history : gmap string task_info) : list string :=
  (filter (λ kv, status kv.2 = completed ∧ task_time kv.2 < cutoff_date)
          (map_to_list history)).*1.

Definition cleanup_old_tasks (days_to_keep : Z) (now : datetime) (tm : t) : t :=
  let cutoff_date := now - timedelta_days days_to_keep in
  {| max_concurrent_tasks := max_concurrent_tasks tm;
     active_tasks := active_tasks tm;
     completed_tasks :=
       filter (λ task, cutoff_date < task_time task) (completed_tasks tm);
     task_history :=
       foldl (λ h task_id, delete task_id h) (task_history tm)
             (task_ids_to_remove cutoff_date (task_history tm));
     objects := objects tm |}.

(** *** [get_all_tasks] *)

(** The sort key, latest start first ([reverse=True]). *)
Definition later_first (a b : task_info) : Prop := start_time b <= start_time a.

#[global] Instance later_first_dec : RelDecision later_first.
Proof. intros a b. unfold later_first. apply _. Defined.

(** [get_all_tasks]: the records of the active tasks that have one, then
    [completed_tasks], sorted by start time, latest first.  The relative
    order of records with the same start time is not that of the source. *)
Definition get_all_tasks (tm : t) : list task_info :=
  let all_tasks :=
    omap (λ kv, task_history tm !! kv.1) (map_to_list (active_tasks tm))
    ++ completed_tasks tm in
  merge_sort later_first all_tasks.

End TaskManager.

(** ** The routes of [app.py] that create jobs and clean up *)

Module App.

(** The two managers created when the module is loaded. *)
Record state := {
  task_manager : TaskManager.t;
  data_manager : Store.fs
}.

(** [task_manager = TaskManager(max_concurrent_tasks=5)]. *)
Definition initial : state :=
  {| task_manager := TaskManager.init 5; data_manager := Store.empty_fs |}.

(** A form field read with [int(request.form.get(key, default))]. *)
Inductive int_field := Missing | Number (n : Z) | NotANumber.

Record form := {
  f_target_ip : option string;
  f_duration_hours : int_field
}.

(** [str.strip()] on ASCII white space; it is [str.strip()] on the strings
    made of ASCII characters ([ascii_only] below). *)
Definition is_space (c : ascii) : bool :=
  let n := nat_of_ascii c in
  ((9 <=? n) && (n <=? 13) || (28 <=? n) && (n <=? 32))%nat.

Fixpoint lstrip (s : list ascii) : list ascii :=
  match s with
  | c :: s' => if is_space c then lstrip s' else s
  | [] => []
  end.

Definition strip (s : string) : string :=
  string_of_list_ascii
    (rev (lstrip (rev (lstrip (list_ascii_of_string s))))).

(** The strings made of ASCII characters only; on these [strip] above is
    [str.strip()] (which also removes the white space beyond ASCII). *)
Definition ascii_only (s : string) : Prop :=
  Forall (λ c, (nat_of_ascii c < 128)%nat) (list_ascii_of_string s).

Inductive bad_request :=
| NoTargetIp                    (* '请输入目标IP地址' *)
| DurationTooLong.              (* '持续时间不能超过24小时' *)

Inductive response :=
| Success (task_id : string)            (* 200 *)
| BadRequest (e : bad_request)          (* 400 *)
| ServerError (e : TaskManager.exn).    (* 500, from [except Exception] *)

Definition set_task_manager (tm : TaskManager.t) (a : state) : state :=
  {| task_manager := tm; data_manager := data_manager a |}.

(** [POST /start_ping]. *)
Definition start_ping (f : form) (uuid : string) (now : datetime) (a : state)
  : response * state :=
  let target_ip := strip (default EmptyString (f_target_ip f)) in
  match f_duration_hours f with
  | NotANumber => (ServerError TaskManager.ValueError, a)
  | field =>
      let duration_hours := match field with Number n => n | _ => 24 end in
      if bool_decide (target_ip = EmptyString) then (BadRequest NoTargetIp, a)
      else if duration_hours >? 24 then (BadRequest DurationTooLong, a)
      else
        match TaskManager.create_task target_ip duration_hours uuid now
                (task_manager a) with
        | (inl e, tm) => (ServerError e, set_task_manager tm a)
        | (inr (task_id, _), tm) => (Success task_id, set_task_manager tm a)
        end
  end.

(** [POST /cleanup]: [data_manager.clean_old_data(days_to_keep=7)]. *)
Definition cleanup (now : datetime) (a : state) : state :=
  {| task_manager := task_manager a;
     data_manager := Store.clean_old_data 7 now (data_manager a) |}.

(** [GET /api/task/<task_id>/data]: 404 when there is no data, else the
    three columns of the last [min(1000, len(data))] rows. *)
Inductive data_response :=
| NotFound
| Columns (timestamps : list datetime) (response_times : list (option float))
    (statuses : list Sample.outcome).

Definition task_data (task_id : string) (a : state) : data_response :=
  match Store.load_task_data (data_manager a) task_id with
  | None => NotFound
  | Some data =>
      let limit := Nat.min 1000 (length data) in
      let recent_data := drop (length data - limit) data in
      Columns (Sample.timestamp <$> recent_data)
              (Sample.response_time <$> recent_data)
              (Sample.status <$> recent_data)
  end.

End App.

(** ** Concurrent calls of [create_task]

    A call of [create_task] runs in two pieces: the capacity test, made
    without the lock, and the registration, made under it.  Other threads
    may run between the two. *)

Module Interleaving.

Import TaskManager.

Inductive pc :=
| BeforeCheck
| BeforeLock
| Returned (r : exn + string).

Record call := {
  c_target : string;
  c_hours : Z;
  c_uuid : string;
  c_pc : pc
}.

Definition at_pc (p : pc) (c : call) : call :=
  {| c_target := c_target c; c_hours := c_hours c; c_uuid := c_uuid c;
     c_pc := p |}.

(** One piece of one call. *)
Definition step (now : datetime) (c : call) (tm : t) : call * t :=
  match c_pc c with
  | BeforeCheck =>
      if at_capacity tm then (at_pc (Returned (inl MaxConcurrentTasks)) c, tm)
      else (at_pc BeforeLock c, tm)
  | BeforeLock =>
      let task_id := short_id (c_uuid c) in
      let '(_, tm') := register (c_target c) (c_hours c) task_id now tm in
      (at_pc (Returned (inr task_id)) c, tm')
  | Returned _ => (c, tm)
  end.

(** The calls advance in the order the schedule names them. *)
Fixpoint run (schedule : list nat) (now : datetime) (calls : list call)
    (tm : t) : list call * t :=
  match schedule with
  | [] => (calls, tm)
  | i :: schedule' =>
      match calls !! i with
      | Some c =>
          let '(c', tm') := step now c tm in
          run schedule' now (<[i := c']> calls) tm'
      | None => run schedule' now calls tm
      end
  end.

End Interleaving.

(** ** Histories of calls on one manager

    Each call runs to its end before the next one starts; the watcher
    threads take part through their wake-ups. *)

Module History.

Import TaskManager.

Inductive call :=
| Create (target : string) (hours : Z) (uuid : string)
| Stop (task_id : string)
| Wake (w : watcher)
| Cleanup (days_to_keep : Z).

(** The manager after one call made at time [now]. *)
Definition exec (tm : t) (c : call * datetime) : t :=
  match c with
  | (Create target hours uuid, now) => (create_task target hours uuid now tm).2
  | (Stop task_id, now) => (stop_task task_id now tm).2
  | (Wake w, now) => wake_state (_monitor_task w now tm)
  | (Cleanup days, now) => cleanup_old_tasks days now tm
  end.

Definition exec_all (calls : list (call * datetime)) (tm : t) : t :=
  foldl exec tm calls.

(** The tasks whose record says [running]. *)
Definition running_tasks (tm : t) : gmap string task_info :=
  filter (λ kv, status kv.2 = running) (task_history tm).

(** The active ids are exactly the ids whose record says [running]. *)
Definition agree (active : gmap string nat) (history : gmap string task_info)
  : Prop :=
  ∀ k, is_Some (active !! k)
       ↔ ∃ i, history !! k = Some i ∧ status i = running.

Definition consistent (tm : t) : Prop :=
  agree (active_tasks tm) (task_history tm).

(** The active set does not exceed the ceiling. *)
Definition within_ceiling (tm : t) : Prop :=
  Z.of_nat (size (active_tasks tm)) <= max_concurrent_tasks tm.

(** The shape of the registry: a record is filed under its own id, an
    active task points to a monitor built for its id, and the records of
    [completed_tasks] say [completed] and carry an end time. *)
Definition well_formed (tm : t) : Prop :=
  (∀ k i, task_history tm !! k = Some i → id i = k)
  ∧ (∀ k h, active_tasks tm !! k = Some h →
            ∃ m, objects tm !! h = Some m ∧ PingMonitor.task_id m = k)
  ∧ Forall (λ i, status i = completed ∧ is_Some (end_time i))
           (completed_tasks tm).

End History.

(** ** Scenarios used below *)

Module Scenario.

Definition uuid1 : string := "3f2a9c1e-7b4d-4e8a-9c1d-2f6b8a0e4c57".
Definition uuid2 : string := "b81d0c55-1a2e-4f6b-8d3c-9e7f5a4b3c21".
Definition host : string := "8.8.8.8".

Definition second : Z := 1000000.
Definition day : Z := 86400 * second.

(** A monitor for [host], created for task [3f2a9c1e] and started at 0. *)
Definition monitor1 : PingMonitor.t :=
  PingMonitor.start 0 (PingMonitor.init host 1 (TaskManager.short_id uuid1)).

Definition stamp1 : string := "20240101_000000".

Definition ok_at (n : Z) : PingMonitor.tick :=
  PingMonitor.Tick true (n * second) (PingMonitor.Returns (PingMonitor.Delay 12.5%float)).

Definition raise_at (n : Z) : PingMonitor.tick :=
  PingMonitor.Tick true (n * second) (PingMonitor.Raises "Permission denied").

(** Ticks at seconds [from], [from+1], ... *)
Fixpoint ticks (mk : Z → PingMonitor.tick) (from : Z) (n : nat)
  : list PingMonitor.tick :=
  match n with
  | O => []
  | S n' => mk from :: ticks mk (from + 1) n'
  end.

Definition id1 : string := "3f2a9c1e".
Definition id2 : string := "b81d0c55".

(** The watcher that [create_task] launches for the first job of a fresh
    manager, created at time 0 for one hour. *)
Definition watcher1 : TaskManager.watcher :=
  {| TaskManager.w_task_id := id1; TaskManager.w_monitor := 0%nat;
     TaskManager.w_duration_hours := 1; TaskManager.w_start_time := 0 |}.

Definition hour : Z := 3600 * second.

(** An application whose only job ran for its hour, saved ten samples and
    its report, and was completed by its watcher at the end of the hour. *)
Definition finished_job : App.state :=
  {| App.task_manager :=
       History.exec_all
         [(History.Create host 1 uuid1, 0); (History.Wake watcher1, hour)]
         (TaskManager.init 5);
     App.data_manager :=
       (PingMonitor._ping_loop monitor1 stamp1 (ticks ok_at 0 10) hour
          Store.empty_fs).1.2 |}.

(** A form asking for [hours] hours of probing of [host]. *)
Definition form_for (hours : Z) : App.form :=
  {| App.f_target_ip := Some host; App.f_duration_hours := App.Number hours |}.

(** Two calls of [create_task] about to start. *)
Definition two_calls : list Interleaving.call :=
  [ {| Interleaving.c_target := host; Interleaving.c_hours := 1;
       Interleaving.c_uuid := uuid1; Interleaving.c_pc := Interleaving.BeforeCheck |};
    {| Interleaving.c_target := host; Interleaving.c_hours := 1;
       Interleaving.c_uuid := uuid2; Interleaving.c_pc := Interleaving.BeforeCheck |} ].

(** The first monitor once its loop has named its series, and a store
    holding three of its samples. *)
Definition file1 : string := PingMonitor.data_file_name host stamp1.

Definition monitor1_named : PingMonitor.t :=
  PingMonitor.set_data_file file1 monitor1.

Definition three_samples : Store.fs :=
  PingMonitor.after_sampling monitor1_named file1 hour (ticks ok_at 0 3)
    (3 * second) Store.empty_fs.

Definition timeout_at (n : Z) : PingMonitor.tick :=
  PingMonitor.Tick true (n * second) (PingMonitor.Returns PingMonitor.PyNone).

End Scenario.

(** * Properties *)

(** ** The sampling loop *)

Section SamplerFacts.

Import Sample PingMonitor.

Variables (m : PingMonitor.t) (file_name : string).

Lemma no_flush_yet {A} (buffer : list A) (p : A) :
  (length buffer < 9)%nat → (10 <=? length (buffer ++ [p]))%nat = false.
Proof.
  intros H. apply Nat.leb_gt. rewrite length_app.
  change (length [p]) with 1%nat. lia.
Qed.

Lemma flush_or_not {A} (buffer : list A) (p : A) :
  (10 <=? length (buffer ++ [p]))%nat = (9 <=? length buffer)%nat.
Proof.
  rewrite length_app. change (length [p]) with 1%nat.
  destruct (Nat.leb_spec 9 (length buffer)).
  - apply Nat.leb_le. lia.
  - apply Nat.leb_gt. lia.
Qed.

(** Without a flush the body appends exactly one point. *)
Lemma loop_body_short (k : tick) (buffer : list data_point) (d : Store.fs) :
  (length buffer < 9)%nat →
  ∃ p, loop_body m file_name k (buffer, d) = (buffer ++ [p], d)
       ∧ timestamp p = now k ∧ target p = target_ip m.
Proof.
  intros Hlen. unfold loop_body.
  destruct (answer k) as [v|e]; [|eexists; split; [reflexivity|done]].
  rewrite no_flush_yet by done.
  eexists; split; [reflexivity|done].
Qed.

(** A probe that returns a non-zero delay is recorded as a success with
    that delay. *)
Lemma delay_recorded (fl : bool) (t : datetime) (ms : float)
    (buffer : list data_point) (d : Store.fs) :
  PrimFloat.eqb ms 0 = false →
  (length buffer < 9)%nat →
  loop_body m file_name (Tick fl t (Returns (Delay ms))) (buffer, d)
  = (buffer ++ [{| timestamp := t; target := target_ip m;
                   response_time := Some ms; status := success;
                   error_text := None |}], d).
Proof.
  intros Hms Hlen. unfold loop_body, latency_of, truthy, answer.
  rewrite Hms. simpl negb. cbv iota. by rewrite no_flush_yet.
Qed.

(** A probe that returns nothing is recorded as a timeout without latency. *)
Lemma none_recorded (fl : bool) (t : datetime)
    (buffer : list data_point) (d : Store.fs) :
  (length buffer < 9)%nat →
  loop_body m file_name (Tick fl t (Returns PyNone)) (buffer, d)
  = (buffer ++ [{| timestamp := t; target := target_ip m;
                   response_time := None; status := timeout;
                   error_text := None |}], d).
Proof.
  intros Hlen. unfold loop_body, answer. by rewrite no_flush_yet.
Qed.

(** A probe that raises is recorded as an error with the message, whatever
    the size of the buffer, and nothing is saved. *)
Lemma raise_recorded (fl : bool) (t : datetime) (e : string)
    (buffer : list data_point) (d : Store.fs) :
  loop_body m file_name (Tick fl t (Raises e)) (buffer, d)
  = (buffer ++ [{| timestamp := t; target := target_ip m;
                   response_time := None; status := error;
                   error_text := Some e |}], d).
Proof. reflexivity. Qed.

(** The body touches neither the reports nor the charts. *)
Lemma loop_body_reports (k : tick) (st : loop_state) :
  Store.reports (loop_body m file_name k st).2 = Store.reports st.2
  ∧ Store.processed (loop_body m file_name k st).2 = Store.processed st.2.
Proof.
  destruct st as [buffer d]. unfold loop_body.
  destruct (answer k); [|done].
  destruct (10 <=? _)%nat; done.
Qed.

(** The body only ever writes the monitor's own series. *)
Lemma loop_body_raw_other (k : tick) (st : loop_state) (other : string) :
  other ≠ file_name →
  Store.raw (loop_body m file_name k st).2 !! other = Store.raw st.2 !! other.
Proof.
  intros Hne. destruct st as [buffer d]. unfold loop_body.
  destruct (answer k); [|done].
  destruct (10 <=? _)%nat; [|done].
  simpl. by rewrite lookup_insert_ne.
Qed.

Lemma save_data_filled (t : datetime) (rows : list data_point) (d : Store.fs) :
  rows ≠ [] →
  ∃ f, Store.raw (_save_data file_name t rows d) !! file_name = Some f
       ∧ Store.content f ≠ [].
Proof.
  intros Hrows. unfold _save_data; simpl. rewrite lookup_insert_eq.
  eexists; split; [done|]. simpl.
  intros [_ ?]%app_eq_nil. done.
Qed.

Lemma loop_body_filled (d0 : Store.fs) (k : tick) (st : loop_state) :
  untouched_or_filled file_name d0 st.2 →
  untouched_or_filled file_name d0 (loop_body m file_name k st).2.
Proof.
  destruct st as [buffer d]. unfold loop_body.
  destruct (answer k); [|done].
  rewrite flush_or_not. destruct (9 <=? length buffer)%nat; [|done].
  intros _. right. apply save_data_filled.
  intros [_ ?]%app_eq_nil. done.
Qed.

Lemma sampling_filled (end_time : datetime) (trace : list tick)
    (d0 : Store.fs) (st : loop_state) :
  untouched_or_filled file_name d0 st.2 →
  untouched_or_filled file_name d0 (sampling m file_name end_time trace st).2.
Proof.
  revert st. induction trace as [|k trace IH]; intros st Hst; simpl; [done|].
  destruct (flag k && (now k <? end_time)); [|done].
  apply IH. by apply loop_body_filled.
Qed.

Lemma after_sampling_filled (end_time : datetime) (trace : list tick)
    (exit_time : datetime) (d : Store.fs) :
  untouched_or_filled file_name d (after_sampling m file_name end_time trace exit_time d).
Proof.
  unfold after_sampling.
  pose proof (sampling_filled end_time trace d ([], d) (or_introl eq_refl)) as H.
  destruct (sampling m file_name end_time trace ([], d)) as [buffer d1].
  simpl in H. destruct buffer as [|p buffer]; [done|].
  right. by apply save_data_filled.
Qed.

(** As long as no probe raises, the buffer stays below ten points: every
    tenth point is saved at once. *)
Lemma sampling_buffer_bound (end_time : datetime) (trace : list tick)
    (st : loop_state) :
  Forall (λ k, ∃ v, answer k = Returns v) trace →
  (length st.1 < 10)%nat →
  (length (sampling m file_name end_time trace st).1 < 10)%nat.
Proof.
  revert st. induction trace as [|k trace IH]; intros [buffer d] Hall Hlen;
    [done|].
  apply Forall_cons in Hall as [[v Hv] Hall].
  cbn [sampling]. destruct (flag k && (now k <? end_time)); [|done].
  apply IH; [done|].
  unfold loop_body. rewrite Hv, flush_or_not. simpl in Hlen.
  destruct (Nat.leb_spec 9 (length buffer)); simpl; [lia|].
  rewrite length_app. simpl. lia.
Qed.

End SamplerFacts.

Section SamplerClaims.

Import Sample PingMonitor Scenario.

(** C3 (the code departs from it).  A probe that returns the numeric
    latency 0.0 is not recorded as a success with that latency: the body
    tests the truth value of the answer, zero is false, and the point gets
    status [timeout] and no latency. *)
Theorem zero_delay_recorded_as_timeout (m : PingMonitor.t)
    (file_name : string) (fl : bool) (t : datetime) (d : Store.fs) :
  loop_body m file_name (Tick fl t (Returns (Delay 0%float))) ([], d)
  = ([{| timestamp := t; target := target_ip m; response_time := None;
         status := timeout; error_text := None |}], d).
Proof. reflexivity. Qed.

(** C4 (the code departs from it).  Nine answered probes, one probe that
    raises, one answered probe: after the tenth sample the buffer holds
    ten points and nothing has been saved; the eleventh sample triggers
    the first save, of eleven points at once.  Twelve probes that all
    raise leave twelve points in the buffer and no file. *)
Theorem error_point_is_not_flushed :
  let trace := ticks ok_at 0 9 ++ [raise_at 9; ok_at 10] in
  let run tr := sampling monitor1 "series.csv" (3600 * second) tr ([], Store.empty_fs) in
  (length (run (take 10 trace)).1 = 10%nat
   ∧ Store.raw (run (take 10 trace)).2 !! "series.csv" = None)
  ∧ ((run trace).1 = []
     ∧ length ∘ Store.content <$> Store.raw (run trace).2 !! "series.csv"
       = Some 11%nat)
  ∧ (length (run (ticks raise_at 0 12)).1 = 12%nat
     ∧ Store.raw (run (ticks raise_at 0 12)).2 = ∅).
Proof. vm_compute. done. Qed.

(** C1 (the code departs from it).  The sampler of task [3f2a9c1e] probing
    8.8.8.8 saves a batch of ten samples; the series is stored under the
    name of the target, so loading by the task id finds nothing, while the
    ten rows are on disk (and are found under the target's name). *)
Theorem series_not_found_by_task_id :
  let d := (_ping_loop monitor1 stamp1 (ticks ok_at 0 10) (10 * second)
              Store.empty_fs).1.2 in
  task_id monitor1 = "3f2a9c1e"
  ∧ length ∘ Store.content <$> Store.raw d !! "ping_8.8.8.8_20240101_000000.csv"
    = Some 10%nat
  ∧ Store.load_task_data d "3f2a9c1e" = None
  ∧ length <$> Store.load_task_data d "8.8.8.8" = Some 10%nat.
Proof. vm_compute. done. Qed.

(** Report generation never divides by zero when the series on disk, if
    any, holds rows: everything the sampler saves is a non-empty batch. *)
Lemma ping_loop_no_zero_division (m : PingMonitor.t) (stamp : string)
    (trace : list tick) (exit_time : datetime) (d : Store.fs) :
  (∀ f, Store.raw d !! data_file_name (target_ip m) stamp = Some f →
        Store.content f ≠ []) →
  (_ping_loop m stamp trace exit_time d).2 ≠ ZeroDivisionError.
Proof.
  intros Hd. unfold _ping_loop.
  set (file_name := data_file_name (target_ip m) stamp) in *.
  set (m' := set_data_file file_name m).
  set (end_time := default 0 (start_time m) + duration m).
  pose proof (after_sampling_filled m' file_name end_time trace exit_time d) as H.
  set (d2 := after_sampling m' file_name end_time trace exit_time d) in *.
  assert (∀ f, Store.raw d2 !! file_name = Some f → Store.content f ≠ []) as Hd2.
  { destruct H as [->|(f & Hf & Hne)]; [done|]. intros f'. rewrite Hf. by intros [= <-]. }
  unfold _generate_report. cbn [data_file m' set_data_file].
  destruct (Store.raw d2 !! file_name) as [f|] eqn:Hf; [|done].
  specialize (Hd2 f eq_refl).
  destruct (Store.content f) as [|p rows]; [done|]. done.
Qed.

(** When no series is on disk for the monitor once the loop has been left
    and the rest of the buffer saved, report generation is skipped: the
    store is left as it was found, no report is written and the ratio is
    never computed; a report that could not be loaded before still cannot
    be loaded. *)
Lemma empty_series_skips_report (m : PingMonitor.t) (stamp : string)
    (trace : list tick) (exit_time : datetime) (d : Store.fs) :
  let file_name := data_file_name (target_ip m) stamp in
  let end_time := default 0 (start_time m) + duration m in
  Store.raw (after_sampling (set_data_file file_name m) file_name end_time
               trace exit_time d) !! file_name = None →
  _ping_loop m stamp trace exit_time d = (set_data_file file_name m, d, Skipped)
  ∧ (Store.get_task_report d (task_id m) = None →
     Store.get_task_report (_ping_loop m stamp trace exit_time d).1.2 (task_id m)
     = None).
Proof.
  intros file_name end_time Hnone.
  assert (_ping_loop m stamp trace exit_time d
          = (set_data_file file_name m, d, Skipped)) as Heq.
  { unfold _ping_loop. fold file_name end_time.
    set (m' := set_data_file file_name m) in *.
    pose proof (after_sampling_filled m' file_name end_time trace exit_time d) as H.
    destruct H as [Hd|(f & Hf & _)]; [|by rewrite Hf in Hnone].
    unfold _generate_report. cbn [data_file m' set_data_file].
    rewrite Hnone. by rewrite Hd. }
  split; [done|]. by rewrite Heq.
Qed.

(** A loop whose first guard fails leaves buffer and store as they were. *)
Lemma sampling_no_probe (m : PingMonitor.t) (file_name : string)
    (end_time : datetime) (trace : list tick) (st : loop_state) :
  executed end_time trace = [] →
  sampling m file_name end_time trace st = st.
Proof.
  destruct trace as [|k trace]; [done|]. cbn [executed sampling].
  by destruct (flag k && (now k <? end_time)).
Qed.

(** C8 as stated fails on the code.  A job is stopped after three probes,
    before any batch of ten: when the loop is left nothing has been saved,
    no series is on disk and the three samples sit in the buffer.  The rest
    of the buffer is then saved and a report over the three samples is
    written, which loads back under the task id. *)
Lemma stopped_before_first_flush_is_reported :
  let trace := ticks ok_at 0 3 ++ [Tick false (3 * second) (Returns PyNone)] in
  let at_exit := sampling monitor1_named file1 hour trace ([], Store.empty_fs) in
  let r := _ping_loop monitor1 stamp1 trace (3 * second) Store.empty_fs in
  (at_exit.2 = Store.empty_fs ∧ length at_exit.1 = 3%nat)
  ∧ Store.total_pings <$> Store.get_task_report r.1.2 id1 = Some 3%nat
  ∧ length ∘ Store.content <$> Store.raw r.1.2 !! file1 = Some 3%nat.
Proof. vm_compute. done. Qed.

(** C8, amended.  When no probe is made at all (the first guard of the loop
    already fails, as for a job stopped before its first probe) and no file
    of the series' name exists, the series is empty once the loop has been
    left, and report generation is skipped entirely: the store is left as
    it was found, no report is written and no ratio is computed, so a
    report that could not be loaded before still cannot be loaded. *)
Theorem no_probe_no_report (m : PingMonitor.t) (stamp : string)
    (trace : list tick) (exit_time : datetime) (d : Store.fs) :
  let file_name := data_file_name (target_ip m) stamp in
  let end_time := default 0 (start_time m) + duration m in
  executed end_time trace = [] →
  Store.raw d !! file_name = None →
  _ping_loop m stamp trace exit_time d = (set_data_file file_name m, d, Skipped)
  ∧ (Store.get_task_report d (task_id m) = None →
     Store.get_task_report (_ping_loop m stamp trace exit_time d).1.2 (task_id m)
     = None).
Proof.
  intros file_name end_time Hnone Hfile.
  apply (empty_series_skips_report m stamp trace exit_time d).
  fold file_name end_time. unfold after_sampling.
  by rewrite sampling_no_probe.
Qed.

(** C8 amended, at a job whose flag is found cleared at the first guard. *)
Lemma no_probe_no_report_witness :
  _ping_loop monitor1 stamp1 [Tick false second (Returns PyNone)] second
    Store.empty_fs
  = (set_data_file (data_file_name host stamp1) monitor1, Store.empty_fs, Skipped)
  ∧ (Store.get_task_report Store.empty_fs "3f2a9c1e" = None →
     Store.get_task_report
       (_ping_loop monitor1 stamp1 [Tick false second (Returns PyNone)] second
          Store.empty_fs).1.2 "3f2a9c1e" = None).
Proof.
  apply (no_probe_no_report monitor1 stamp1
           [Tick false second (Returns PyNone)] second Store.empty_fs).
  - vm_compute. reflexivity.
  - vm_compute. reflexivity.
Defined.

End SamplerClaims.

(** ** Retention: what the two cleaning procedures remove *)

Section CleaningFacts.

Context {A : Type}.

Lemma lookup_foldl_delete (ids : list string) (h : gmap string A) (k : string) :
  foldl (λ h task_id, delete task_id h) h ids !! k
  = if decide (k ∈ ids) then None else h !! k.
Proof.
  revert h. induction ids as [|x ids IH]; intros h; cbn [foldl].
  - rewrite decide_False by apply not_elem_of_nil. done.
  - rewrite IH. destruct (decide (k = x)) as [->|Hne].
    + rewrite lookup_delete_eq, (decide_True (P := x ∈ x :: ids)) by (by left).
      by destruct (decide (x ∈ ids)).
    + rewrite lookup_delete_ne by done.
      destruct (decide (k ∈ ids)).
      * rewrite decide_True by (by right). done.
      * rewrite decide_False by (by intros [?|?]%elem_of_cons). done.
Qed.

Lemma elem_of_glob (dir : gmap string (Store.file A)) (pattern n : string) :
  n ∈ Store.glob dir pattern ↔ is_Some (dir !! n) ∧ glob_match pattern n = true.
Proof.
  unfold Store.glob. rewrite list_elem_of_filter, list_elem_of_fmap. split.
  - intros [Hm ([n' f] & -> & Hin%elem_of_map_to_list)]. simpl in *. eauto.
  - intros [[f Hf] Hm]. split; [done|].
    exists (n, f). split; [done|]. by apply elem_of_map_to_list.
Qed.

Lemma lookup_unlink_loop (cutoff : datetime) (names : list string)
    (dir : gmap string (Store.file A)) (n : string) :
  foldl (Store.unlink_if_older cutoff) dir names !! n
  = match dir !! n with
    | Some f =>
        if bool_decide (n ∈ names) && (Store.st_mtime f <? cutoff)
        then None else Some f
    | None => None
    end.
Proof.
  revert dir. induction names as [|x names IH]; intros dir; cbn [foldl].
  - destruct (dir !! n); [|done].
    rewrite bool_decide_eq_false_2 by apply not_elem_of_nil. done.
  - rewrite IH. unfold Store.unlink_if_older.
    destruct (decide (n = x)) as [->|Hne].
    + rewrite (bool_decide_eq_true_2 (x ∈ x :: names)) by (by left).
      destruct (dir !! x) as [f|] eqn:Hf; [|by rewrite Hf].
      destruct (Store.st_mtime f <? cutoff) eqn:Hold.
      * by rewrite lookup_delete_eq.
      * rewrite Hf, Hold. by rewrite andb_false_r.
    + assert (bool_decide (n ∈ x :: names) = bool_decide (n ∈ names)) as ->.
      { apply bool_decide_ext. split; [|by right].
        by intros [?|?]%elem_of_cons. }
      destruct (dir !! x) as [f|] eqn:Hf; [|done].
      destruct (Store.st_mtime f <? cutoff); [|done].
      by rewrite lookup_delete_ne.
Qed.

(** A file of the directory is removed exactly when its name matches the
    pattern and it was last modified before the cutoff. *)
Lemma lookup_unlink_older (dir : gmap string (Store.file A))
    (pattern : string) (cutoff : datetime) (n : string) :
  Store.unlink_older dir pattern cutoff !! n
  = match dir !! n with
    | Some f =>
        if glob_match pattern n && (Store.st_mtime f <? cutoff)
        then None else Some f
    | None => None
    end.
Proof.
  unfold Store.unlink_older. rewrite lookup_unlink_loop.
  destruct (dir !! n) as [f|] eqn:Hf; [|done].
  destruct (glob_match pattern n) eqn:Hm.
  - rewrite bool_decide_eq_true_2; [done|]. apply elem_of_glob. eauto.
  - rewrite bool_decide_eq_false_2; [done|].
    intros [_ ?]%elem_of_glob. congruence.
Qed.

End CleaningFacts.

(** ** The registry: active set and task records *)

Section RegistryFacts.

Import TaskManager History.

Lemma agree_insert_running (active : gmap string nat)
    (history : gmap string task_info) (k0 : string) (monitor : nat)
    (info : task_info) :
  status info = running →
  agree active history →
  agree (<[k0 := monitor]> active) (<[k0 := info]> history).
Proof.
  intros Hrun Hag k. destruct (decide (k = k0)) as [->|Hne].
  - rewrite !lookup_insert_eq. split; eauto.
  - rewrite !lookup_insert_ne by done. apply Hag.
Qed.

Lemma agree_delete_done (active : gmap string nat)
    (history : gmap string task_info) (k0 : string) (info : task_info) :
  status info ≠ running →
  agree active history →
  agree (delete k0 active) (<[k0 := info]> history).
Proof.
  intros Hst Hag k. destruct (decide (k = k0)) as [->|Hne].
  - rewrite lookup_delete_eq, lookup_insert_eq. split.
    + by intros [? [=]].
    + by intros (i & [= <-] & Hi).
  - rewrite lookup_delete_ne, lookup_insert_ne by done. apply Hag.
Qed.

Lemma agree_delete_absent (active : gmap string nat)
    (history : gmap string task_info) (k0 : string) :
  history !! k0 = None →
  agree active history →
  agree (delete k0 active) history.
Proof.
  intros Hnone Hag k. destruct (decide (k = k0)) as [->|Hne].
  - rewrite lookup_delete_eq, Hnone. split.
    + by intros [? [=]].
    + by intros (i & [=] & _).
  - rewrite lookup_delete_ne by done. apply Hag.
Qed.

Lemma agree_alter (active : gmap string nat)
    (history : gmap string task_info) (k0 : string)
    (f : task_info → task_info) :
  (∀ i, status (f i) = status i) →
  agree active history →
  agree active (alter f k0 history).
Proof.
  intros Hf Hag k. rewrite (Hag k), lookup_alter.
  destruct (decide (k0 = k)) as [->|Hne]; [|done].
  destruct (history !! k) as [i|]; simpl.
  - split; intros (i' & [= <-] & Hr); eexists; (split; [done|]).
    + by rewrite Hf.
    + by rewrite <- Hf.
  - split; by intros (i' & [=] & _).
Qed.

Lemma elem_of_task_ids_to_remove (cutoff : datetime)
    (history : gmap string task_info) (k : string) :
  k ∈ task_ids_to_remove cutoff history
  ↔ ∃ i, history !! k = Some i ∧ status i = completed ∧ task_time i < cutoff.
Proof.
  unfold task_ids_to_remove. rewrite list_elem_of_fmap. split.
  - intros ([k' i] & -> & Hin).
    apply list_elem_of_filter in Hin as [[Hs Ht] Hin%elem_of_map_to_list].
    simpl in *. eauto.
  - intros (i & Hi & Hs & Ht). exists (k, i). split; [done|].
    apply list_elem_of_filter. split; [done|]. by apply elem_of_map_to_list.
Qed.

(** What [cleanup_old_tasks] leaves of the history, record by record. *)
Lemma lookup_cleanup_history (days now : Z) (tm : t) (k : string) :
  task_history (cleanup_old_tasks days now tm) !! k
  = match task_history tm !! k with
    | Some i =>
        if decide (status i = completed
                   ∧ task_time i < now - timedelta_days days)
        then None else Some i
    | None => None
    end.
Proof.
  unfold cleanup_old_tasks. cbn [task_history].
  rewrite lookup_foldl_delete.
  destruct (task_history tm !! k) as [i|] eqn:Hi.
  - destruct (decide (status i = completed ∧ _)) as [[Hs Ht]|Hno].
    + rewrite decide_True; [done|]. apply elem_of_task_ids_to_remove. eauto.
    + rewrite decide_False; [done|].
      intros (i' & Hi' & Hs & Ht)%elem_of_task_ids_to_remove.
      rewrite Hi in Hi'. injection Hi' as <-. by apply Hno.
  - by destruct (decide _).
Qed.

End RegistryFacts.

(** ** Invariants of the registry along a history of calls *)

Section SchedulerInvariants.

Import TaskManager History.

Lemma init_consistent (max : Z) : consistent (init max).
Proof.
  intros k. unfold init; simpl. rewrite !lookup_empty. split.
  - by intros [? [=]].
  - by intros (i & [=] & _).
Qed.

Lemma create_task_consistent (target : string) (hours : Z) (uuid : string)
    (now : datetime) (tm : t) :
  consistent tm → consistent (create_task target hours uuid now tm).2.
Proof.
  intros H. unfold create_task. destruct (at_capacity tm); [done|].
  by apply agree_insert_running.
Qed.

Lemma stop_task_consistent (task_id : string) (now : datetime) (tm : t) :
  consistent tm → consistent (stop_task task_id now tm).2.
Proof.
  intros H. unfold stop_task.
  destruct (active_tasks tm !! task_id) as [monitor|]; [|done].
  cbn [task_history stop_object set_objects].
  destruct (task_history tm !! task_id) as [i|]; [|done].
  by apply agree_delete_done.
Qed.

Lemma finish_consistent (task_id : string) (now : datetime) (tm : t) :
  consistent tm → consistent (finish task_id now tm).
Proof.
  intros H. unfold finish.
  destruct (task_history tm !! task_id) as [i|] eqn:Hi.
  - by apply agree_delete_done.
  - by apply agree_delete_absent.
Qed.

Lemma monitor_task_consistent (w : watcher) (now : datetime) (tm : t) :
  consistent tm → consistent (wake_state (_monitor_task w now tm)).
Proof.
  intros H. unfold _monitor_task.
  destruct (monitor_is_running (w_monitor w) tm).
  - destruct (now >=? w_end_time w).
    + by apply finish_consistent.
    + destruct (progress_of _ _); [done|]. by apply agree_alter.
  - by apply finish_consistent.
Qed.

Lemma cleanup_consistent (days now : Z) (tm : t) :
  consistent tm → consistent (cleanup_old_tasks days now tm).
Proof.
  intros H k. rewrite lookup_cleanup_history.
  cbn [cleanup_old_tasks active_tasks]. rewrite (H k).
  destruct (task_history tm !! k) as [i|]; [|done].
  destruct (decide _) as [[Hs _]|_]; [|done].
  split.
  - intros (i' & [= <-] & Hr). congruence.
  - by intros (i' & [=] & _).
Qed.

Lemma exec_consistent (tm : t) (c : call * datetime) :
  consistent tm → consistent (exec tm c).
Proof.
  destruct c as [[target hours uuid|task_id|w|days] now]; simpl.
  - apply create_task_consistent.
  - apply stop_task_consistent.
  - apply monitor_task_consistent.
  - apply cleanup_consistent.
Qed.

(** No call changes the ceiling. *)
Lemma exec_max (tm : t) (c : call * datetime) :
  max_concurrent_tasks (exec tm c) = max_concurrent_tasks tm.
Proof.
  destruct c as [[target hours uuid|task_id|w|days] now]; simpl.
  - unfold create_task. by destruct (at_capacity tm).
  - unfold stop_task. destruct (active_tasks tm !! task_id); [|done].
    cbn [task_history stop_object set_objects].
    by destruct (task_history tm !! task_id).
  - unfold _monitor_task, finish.
    destruct (monitor_is_running _ _).
    + destruct (now >=? _).
      * cbn [task_history stop_object set_objects].
        by destruct (task_history tm !! _).
      * by destruct (progress_of _ _).
    + by destruct (task_history tm !! _).
  - done.
Qed.

Lemma size_delete_le {A} (k : string) (m : gmap string A) :
  (size (delete k m) <= size m)%nat.
Proof. rewrite map_size_delete. destruct (m !! k); simpl; lia. Qed.

Lemma finish_within (task_id : string) (now : datetime) (tm : t) :
  within_ceiling tm → within_ceiling (finish task_id now tm).
Proof.
  unfold within_ceiling, finish. intros H.
  pose proof (size_delete_le task_id (active_tasks tm)).
  destruct (task_history tm !! task_id); simpl; lia.
Qed.

Lemma exec_within (tm : t) (c : call * datetime) :
  within_ceiling tm → within_ceiling (exec tm c).
Proof.
  destruct c as [[target hours uuid|task_id|w|days] now]; simpl; intros H.
  - unfold create_task, at_capacity.
    destruct (Z.geb_spec (Z.of_nat (size (active_tasks tm)))
                (max_concurrent_tasks tm)) as [Hfull|Hroom]; [done|].
    unfold within_ceiling; simpl. rewrite map_size_insert.
    destruct (active_tasks tm !! _); simpl; lia.
  - unfold stop_task. destruct (active_tasks tm !! task_id); [|done].
    cbn [task_history stop_object set_objects].
    pose proof (size_delete_le task_id (active_tasks tm)).
    unfold within_ceiling in *.
    destruct (task_history tm !! task_id); simpl; lia.
  - unfold _monitor_task.
    destruct (monitor_is_running _ _).
    + destruct (now >=? _).
      * by apply finish_within.
      * by destruct (progress_of _ _).
    + by apply finish_within.
  - done.
Qed.

Lemma exec_all_invariant (calls : list (call * datetime)) (tm : t) :
  consistent tm ∧ within_ceiling tm →
  consistent (exec_all calls tm) ∧ within_ceiling (exec_all calls tm)
  ∧ max_concurrent_tasks (exec_all calls tm) = max_concurrent_tasks tm.
Proof.
  revert tm. induction calls as [|c calls IH]; intros tm [Hc Hw]; [done|].
  unfold exec_all in *. cbn [foldl].
  destruct (IH (exec tm c)) as (? & ? & Hmax).
  { split; [by apply exec_consistent | by apply exec_within]. }
  rewrite Hmax, exec_max. done.
Qed.

(** In a consistent registry as many records say [running] as there are
    active tasks. *)
Lemma running_size (tm : t) :
  consistent tm → size (running_tasks tm) = size (active_tasks tm).
Proof.
  intros H.
  assert (dom (running_tasks tm) = dom (active_tasks tm)) as Hdom.
  { apply dom_filter_L. intros k. rewrite elem_of_dom. apply H. }
  by rewrite <- (size_dom (running_tasks tm)), Hdom, size_dom.
Qed.

End SchedulerInvariants.

(** ** The scheduler's claims *)

Section SchedulerClaims.

Import TaskManager History Scenario.

(** C6.  Along every history of calls on a manager created with a
    non-negative ceiling, each call running to its end before the next,
    the records that say [running] and the active set never outnumber the
    ceiling; and a [create_task] made while the active set is at or above
    the ceiling raises the capacity exception and registers nothing. *)
Theorem admission_ceiling (max : Z) (calls : list (call * datetime)) :
  0 <= max →
  let tm := exec_all calls (init max) in
  Z.of_nat (size (running_tasks tm)) <= max
  ∧ Z.of_nat (size (active_tasks tm)) <= max
  ∧ ∀ target hours uuid now,
      max <= Z.of_nat (size (active_tasks tm)) →
      create_task target hours uuid now tm = (inl MaxConcurrentTasks, tm).
Proof.
  intros Hmax tm.
  destruct (exec_all_invariant calls (init max)) as (Hc & Hw & Hm).
  { split; [apply init_consistent|]. unfold within_ceiling; simpl.
    rewrite map_size_empty. lia. }
  fold tm in Hc, Hw, Hm. simpl in Hm. unfold within_ceiling in Hw.
  rewrite Hm in Hw. rewrite running_size by done.
  split; [done|]. split; [done|].
  intros target hours uuid now Hfull. unfold create_task, at_capacity.
  rewrite Hm. destruct (Z.geb_spec (Z.of_nat (size (active_tasks tm))) max);
    [done|lia].
Qed.

(** C6 at the default ceiling, with six jobs requested in a row. *)
Lemma admission_ceiling_witness :
  let tm := exec_all
              [(Create host 1 "00000001-a", 0); (Create host 1 "00000002-a", 1);
               (Create host 1 "00000003-a", 2); (Create host 1 "00000004-a", 3);
               (Create host 1 "00000005-a", 4); (Create host 1 "00000006-a", 5)]
              (init 5) in
  Z.of_nat (size (running_tasks tm)) <= 5
  ∧ Z.of_nat (size (active_tasks tm)) <= 5
  ∧ ∀ target hours uuid now,
      5 <= Z.of_nat (size (active_tasks tm)) →
      create_task target hours uuid now tm = (inl MaxConcurrentTasks, tm).
Proof. apply (admission_ceiling 5). lia. Defined.

(** C10.  [cleanup_old_tasks] removes from the history only records whose
    status is [completed]: a record that is [running] or [stopped] is
    found again unchanged whatever its age, a record that disappeared was
    [completed] and older than the cutoff, and the active set is not
    touched. *)
Theorem cleanup_removes_only_completed (days now : Z) (tm : t)
    (k : string) (i : task_info) :
  task_history tm !! k = Some i →
  (status i ≠ completed →
   task_history (cleanup_old_tasks days now tm) !! k = Some i)
  ∧ (task_history (cleanup_old_tasks days now tm) !! k = None →
     status i = completed ∧ task_time i < now - timedelta_days days)
  ∧ (∀ i', task_history (cleanup_old_tasks days now tm) !! k = Some i' → i' = i)
  ∧ active_tasks (cleanup_old_tasks days now tm) = active_tasks tm.
Proof.
  intros Hi. rewrite lookup_cleanup_history, Hi.
  destruct (decide _) as [[Hs Ht]|Hno].
  - split; [done|]. split; [done|]. split; [by intros i' [=]|done].
  - split; [done|]. split; [by intros [=]|]. split; [|done].
    by intros i' [= <-].
Qed.

(** C10 at a job stopped at time 2 s and never completed by a watcher,
    cleaned a year later with a retention of seven days. *)
Lemma cleanup_removes_only_completed_witness :
  let tm := exec_all [(Create host 1 uuid1, 0); (Stop id1, 2 * second)]
              (init 5) in
  let i := {| id := id1; target_ip := host; duration_hours := 1;
              start_time := 0; status := stopped; progress := 0%float;
              elapsed := None; end_time := Some (2 * second) |} in
  (status i ≠ completed →
   task_history (cleanup_old_tasks 7 (365 * day) tm) !! id1 = Some i)
  ∧ (task_history (cleanup_old_tasks 7 (365 * day) tm) !! id1 = None →
     status i = completed ∧ task_time i < 365 * day - timedelta_days 7)
  ∧ (∀ i', task_history (cleanup_old_tasks 7 (365 * day) tm) !! id1 = Some i'
           → i' = i)
  ∧ active_tasks (cleanup_old_tasks 7 (365 * day) tm) = active_tasks tm.
Proof.
  apply (cleanup_removes_only_completed 7 (365 * day)).
  vm_compute. reflexivity.
Defined.

(** C2 (the code departs from it).  A job is created, then stopped: the
    first [stop_task] answers [True] and the record says [stopped], the
    second answers [False].  The job's watcher then finds the flag cleared
    and runs its final block, which writes [completed] and progress 100
    over the stopped record and appends it to [completed_tasks]. *)
Theorem stopped_job_ends_completed :
  let tm1 := (create_task host 1 uuid1 0 (init 5)).2 in
  let tm2 := (stop_task id1 (2 * second) tm1).2 in
  let tm3 := (stop_task id1 (3 * second) tm2).2 in
  (create_task host 1 uuid1 0 (init 5)).1 = inr (id1, watcher1)
  ∧ (stop_task id1 (2 * second) tm1).1 = inr true
  ∧ status <$> get_task_status id1 tm2 = Some stopped
  ∧ (stop_task id1 (3 * second) tm2).1 = inr false
  ∧ status <$> get_task_status id1 tm3 = Some stopped
  ∧ ∃ tm4, _monitor_task watcher1 (5 * second) tm3 = Ends tm4
       ∧ status <$> get_task_status id1 tm4 = Some completed
       ∧ progress <$> get_task_status id1 tm4 = Some 100%float
       ∧ status <$> completed_tasks tm4 = [completed].
Proof.
  vm_compute. repeat split. eexists. repeat split.
Qed.

(** C9 (the code departs from it).  With a ceiling of one, two calls of
    [create_task] whose capacity tests both run before either registers:
    both return an id and two tasks are active.  Run one after the other,
    the second call is refused. *)
Theorem concurrent_create_exceeds_ceiling :
  let r := Interleaving.run [0; 1; 0; 1]%nat 0 two_calls (init 1) in
  Interleaving.c_pc <$> r.1
    = [Interleaving.Returned (inr id1); Interleaving.Returned (inr id2)]
  ∧ size (active_tasks r.2) = 2%nat
  ∧ max_concurrent_tasks r.2 = 1
  ∧ Interleaving.c_pc <$> (Interleaving.run [0; 0; 1; 1]%nat 0 two_calls (init 1)).1
    = [Interleaving.Returned (inr id1);
       Interleaving.Returned (inl MaxConcurrentTasks)].
Proof. vm_compute. done. Qed.

(** The two pieces of a call, run back to back, are [create_task]. *)
Lemma step_twice_is_create_task (target : string) (hours : Z) (uuid : string)
    (now : datetime) (tm : t) :
  let c := {| Interleaving.c_target := target; Interleaving.c_hours := hours;
              Interleaving.c_uuid := uuid;
              Interleaving.c_pc := Interleaving.BeforeCheck |} in
  let '(c1, tm1) := Interleaving.step now c tm in
  let '(c2, tm2) := Interleaving.step now c1 tm1 in
  tm2 = (create_task target hours uuid now tm).2
  ∧ Interleaving.c_pc c2
    = Interleaving.Returned
        (match (create_task target hours uuid now tm).1 with
         | inl e => inl e
         | inr (task_id, _) => inr task_id
         end).
Proof.
  unfold Interleaving.step, create_task; simpl.
  destruct (at_capacity tm); done.
Qed.

End SchedulerClaims.

(** ** The routes: duration check and cleanup *)

Section AppClaims.

Import TaskManager Scenario.

(** C5 as stated fails on the code: a request for zero hours, or for a
    negative number of hours, is accepted, and the job is registered as
    [running]. *)
Lemma start_ping_accepts_non_positive :
  (App.start_ping (form_for 0) uuid1 0 App.initial).1 = App.Success id1
  ∧ status <$> get_task_status id1
                 (App.task_manager (App.start_ping (form_for 0) uuid1 0 App.initial).2)
    = Some running
  ∧ (App.start_ping (form_for (-3)) uuid1 0 App.initial).1 = App.Success id1
  ∧ (create_task host 0 uuid1 0 (init 5)).1 = inr (id1,
       {| w_task_id := id1; w_monitor := 0%nat; w_duration_hours := 0;
          w_start_time := 0 |}).
Proof. vm_compute. done. Qed.

(** C5, amended.  For a request whose target is made of ASCII characters,
    is not blank, and whose duration is a number: the route answers with
    the duration error, and changes nothing, when the number exceeds 24,
    and never answers with the duration error when it does not; a number
    up to 24 that [timedelta] accepts, be it 24, zero or negative, reaches
    the registration, which makes no test on the duration: with room under
    the ceiling the job is registered as [running] for that many hours and
    its id is returned. *)
Theorem start_ping_duration_check (target : string) (n : Z) (uuid : string)
    (now : datetime) (a : App.state) :
  App.ascii_only target →
  App.strip target ≠ EmptyString →
  let f := {| App.f_target_ip := Some target;
              App.f_duration_hours := App.Number n |} in
  (24 < n → App.start_ping f uuid now a = (App.BadRequest App.DurationTooLong, a))
  ∧ (n <= 24 →
     (App.start_ping f uuid now a).1 ≠ App.BadRequest App.DurationTooLong)
  ∧ (n <= 24 → timedelta_in_range n →
     at_capacity (App.task_manager a) = false →
     (App.start_ping f uuid now a).1 = App.Success (short_id uuid)
     ∧ ∃ i, get_task_status (short_id uuid)
              (App.task_manager (App.start_ping f uuid now a).2) = Some i
            ∧ status i = running
            ∧ duration_hours i = n
            ∧ target_ip i = App.strip target).
Proof.
  intros _ Htarget f. unfold App.start_ping.
  cbn [f App.f_target_ip App.f_duration_hours default].
  rewrite bool_decide_eq_false_2 by done.
  split; [|split].
  - intros Hn. destruct (Z.gtb_spec n 24); [done|lia].
  - intros Hn. destruct (Z.gtb_spec n 24); [lia|].
    unfold create_task. destruct (at_capacity _); done.
  - intros Hn _ Hroom. destruct (Z.gtb_spec n 24); [lia|].
    unfold create_task. rewrite Hroom. cbn. split; [done|].
    unfold get_task_status; simpl. rewrite lookup_insert_eq.
    eexists; split; [done|]. done.
Qed.

(** C5 amended, at the largest accepted duration. *)
Lemma start_ping_duration_check_witness :
  (24 < 24 → App.start_ping (form_for 24) uuid1 0 App.initial
             = (App.BadRequest App.DurationTooLong, App.initial))
  ∧ (24 <= 24 →
     (App.start_ping (form_for 24) uuid1 0 App.initial).1
     ≠ App.BadRequest App.DurationTooLong)
  ∧ (24 <= 24 → timedelta_in_range 24 →
     at_capacity (App.task_manager App.initial) = false →
     (App.start_ping (form_for 24) uuid1 0 App.initial).1
     = App.Success (short_id uuid1)
     ∧ ∃ i, get_task_status (short_id uuid1)
              (App.task_manager
                 (App.start_ping (form_for 24) uuid1 0 App.initial).2) = Some i
            ∧ status i = running
            ∧ duration_hours i = 24
            ∧ target_ip i = App.strip host).
Proof.
  apply (start_ping_duration_check host 24 uuid1 0 App.initial).
  - vm_compute. repeat (constructor; [lia|]). constructor.
  - vm_compute. discriminate.
Defined.

(** C7 as stated fails on the code.  A job completed at the end of its
    first hour, looked at 31 days later.  The cleanup route purges its
    report and its series from the store but leaves its record in the
    history and in [completed_tasks]; [cleanup_old_tasks] with 30 days
    purges the record but leaves the report and the series in the store. *)
Lemma no_cleanup_purges_both :
  let now := 31 * day + hour in
  let a1 := App.cleanup now finished_job in
  let a2 := App.set_task_manager
              (cleanup_old_tasks 30 now (App.task_manager finished_job))
              finished_job in
  (end_time <$> get_task_status id1 (App.task_manager finished_job)
     = Some (Some hour)
   ∧ Store.total_pings <$> Store.get_task_report (App.data_manager finished_job) id1
     = Some 10%nat)
  ∧ (Store.get_task_report (App.data_manager a1) id1 = None
     ∧ Store.raw (App.data_manager a1) = ∅
     ∧ status <$> get_task_status id1 (App.task_manager a1) = Some completed
     ∧ length (completed_tasks (App.task_manager a1)) = 1%nat)
  ∧ (get_task_status id1 (App.task_manager a2) = None
     ∧ completed_tasks (App.task_manager a2) = []
     ∧ Store.total_pings <$> Store.get_task_report (App.data_manager a2) id1
       = Some 10%nat
     ∧ length <$> Store.load_task_data (App.data_manager a2) host = Some 10%nat).
Proof. vm_compute. done. Qed.

(** C7, amended.  The two cleaning procedures are separate.
    [cleanup_old_tasks] works on the registry alone: it removes from the
    history the records that are [completed] with a time before the cutoff
    and keeps in [completed_tasks] the records with a time after it.
    [clean_old_data] works on the store alone: in each directory it
    removes the files of its extension last modified before the cutoff.
    The cleanup route runs the second one only, with seven days. *)
Theorem cleanup_procedures (days now : Z) (a : App.state) :
  let cutoff := now - timedelta_days days in
  let tm := App.task_manager a in
  let d := App.data_manager a in
  (∀ k, task_history (cleanup_old_tasks days now tm) !! k
        = match task_history tm !! k with
          | Some i =>
              if decide (status i = completed ∧ task_time i < cutoff)
              then None else Some i
          | None => None
          end)
  ∧ completed_tasks (cleanup_old_tasks days now tm)
    = filter (λ task, cutoff < task_time task) (completed_tasks tm)
  ∧ (∀ n, Store.raw (Store.clean_old_data days now d) !! n
          = match Store.raw d !! n with
            | Some f => if glob_match "*.csv" n && (Store.st_mtime f <? cutoff)
                        then None else Some f
            | None => None
            end)
  ∧ (∀ n, Store.reports (Store.clean_old_data days now d) !! n
          = match Store.reports d !! n with
            | Some f => if glob_match "*.json" n && (Store.st_mtime f <? cutoff)
                        then None else Some f
            | None => None
            end)
  ∧ (∀ n, Store.processed (Store.clean_old_data days now d) !! n
          = match Store.processed d !! n with
            | Some f => if glob_match "*.png" n && (Store.st_mtime f <? cutoff)
                        then None else Some f
            | None => None
            end)
  ∧ App.cleanup now a
    = {| App.task_manager := tm;
         App.data_manager := Store.clean_old_data 7 now d |}.
Proof.
  intros cutoff tm d. repeat split.
  - intros k. apply lookup_cleanup_history.
  - intros n. apply lookup_unlink_older.
  - intros n. apply lookup_unlink_older.
  - intros n. apply lookup_unlink_older.
Qed.

End AppClaims.

(** ** The same behaviours, away from the scenarios *)

Section General.

Import TaskManager.

(** Whatever the manager, a task that is stopped while active is marked
    [stopped], and the next wake-up of its watcher ends the thread and
    marks it [completed]. *)
Lemma stop_then_wake_completes (tm : t) (w : watcher) (i : task_info)
    (t1 t2 : datetime) :
  active_tasks tm !! w_task_id w = Some (w_monitor w) →
  task_history tm !! w_task_id w = Some i →
  ∃ tm1 tm2,
    stop_task (w_task_id w) t1 tm = (inr true, tm1)
    ∧ status <$> get_task_status (w_task_id w) tm1 = Some stopped
    ∧ _monitor_task w t2 tm1 = Ends tm2
    ∧ status <$> get_task_status (w_task_id w) tm2 = Some completed.
Proof.
  intros Hactive Hhist. unfold stop_task. rewrite Hactive.
  cbn [task_history stop_object set_objects]. rewrite Hhist.
  eexists _, _. split; [reflexivity|].
  unfold get_task_status. cbn [task_history]. rewrite lookup_insert_eq.
  split; [done|].
  unfold _monitor_task, monitor_is_running.
  cbn [objects stop_object set_objects].
  rewrite list_lookup_alter, decide_True by done.
  assert (match PingMonitor.stop <$> objects tm !! w_monitor w with
          | Some m => PingMonitor.is_running m
          | None => false
          end = false) as ->.
  { by destruct (objects tm !! w_monitor w). }
  split; [reflexivity|].
  unfold finish. cbn [task_history]. rewrite lookup_insert_eq.
  cbn [task_history]. by rewrite lookup_insert_eq.
Qed.

Import PingMonitor.

Lemma sampling_raw_other (m : PingMonitor.t) (file_name other : string)
    (end_time : datetime) (trace : list tick) (st : loop_state) :
  other ≠ file_name →
  Store.raw (sampling m file_name end_time trace st).2 !! other
  = Store.raw st.2 !! other.
Proof.
  intros Hne. revert st. induction trace as [|k trace IH]; intros st; [done|].
  cbn [sampling]. destruct (flag k && (now k <? end_time)); [|done].
  rewrite IH. by apply loop_body_raw_other.
Qed.

(** The sampler writes no series but its own. *)
Lemma ping_loop_raw_other (m : PingMonitor.t) (stamp other : string)
    (trace : list tick) (exit_time : datetime) (d : Store.fs) :
  other ≠ data_file_name (PingMonitor.target_ip m) stamp →
  Store.raw (_ping_loop m stamp trace exit_time d).1.2 !! other
  = Store.raw d !! other.
Proof.
  intros Hne. unfold _ping_loop.
  set (file_name := data_file_name (PingMonitor.target_ip m) stamp) in *.
  set (m' := set_data_file file_name m).
  set (end_time := default 0 (PingMonitor.start_time m) + duration m).
  assert (Store.raw (after_sampling m' file_name end_time trace exit_time d)
            !! other = Store.raw d !! other) as Hafter.
  { unfold after_sampling.
    pose proof (sampling_raw_other m' file_name other end_time trace ([], d) Hne)
      as H.
    destruct (sampling m' file_name end_time trace ([], d)) as [buffer d1].
    simpl in H. destruct buffer; [done|].
    unfold _save_data; simpl. by rewrite lookup_insert_ne. }
  set (d2 := after_sampling m' file_name end_time trace exit_time d) in *.
  unfold _generate_report. cbn [data_file m' set_data_file].
  destruct (Store.raw d2 !! file_name) as [f|]; [|done].
  by destruct (length (Store.content f)).
Qed.

(** A store none of whose series matches the pattern of a task id has
    nothing to load for it. *)
Lemma load_none_when_no_match (d : Store.fs) (task_id : string) :
  (∀ n, is_Some (Store.raw d !! n) →
        glob_match ("ping_" +:+ task_id +:+ "_*.csv") n = false) →
  Store.load_task_data d task_id = None.
Proof.
  intros Hno. unfold Store.load_task_data.
  destruct (Store.glob _ _) as [|n names] eqn:Hglob; [done|].
  assert (n ∈ Store.glob (Store.raw d) ("ping_" +:+ task_id +:+ "_*.csv")) as Hin.
  { rewrite Hglob. by left. }
  apply elem_of_glob in Hin as [Hsome Hmatch].
  rewrite Hno in Hmatch by done. discriminate.
Qed.

(** Unless the name of the series, built from the target, happens to match
    the pattern built from the task id, the samples saved by the sampler are
    not found by [load_task_data]. *)
Lemma load_by_task_id_misses_series (m : PingMonitor.t) (stamp : string)
    (trace : list tick) (exit_time : datetime) (d : Store.fs) :
  glob_match ("ping_" +:+ PingMonitor.task_id m +:+ "_*.csv")
    (data_file_name (PingMonitor.target_ip m) stamp) = false →
  (∀ n, is_Some (Store.raw d !! n) →
        glob_match ("ping_" +:+ PingMonitor.task_id m +:+ "_*.csv") n = false) →
  Store.load_task_data (_ping_loop m stamp trace exit_time d).1.2
    (PingMonitor.task_id m) = None.
Proof.
  intros Hfile Hno. apply load_none_when_no_match. intros n Hn.
  destruct (decide (n = data_file_name (PingMonitor.target_ip m) stamp))
    as [->|Hne]; [done|].
  apply Hno. by rewrite ping_loop_raw_other in Hn.
Qed.

(** A job stopped with three samples still in the buffer: the samples are
    saved when the loop is left, and a report over them is written. *)
Example stopped_with_buffered_samples :
  let r := _ping_loop Scenario.monitor1 Scenario.stamp1
             (Scenario.ticks Scenario.ok_at 0 3
              ++ [Tick false (3 * Scenario.second) (Returns PyNone)])
             (3 * Scenario.second) Store.empty_fs in
  Store.total_pings <$> Store.get_task_report r.1.2 Scenario.id1 = Some 3%nat
  ∧ length ∘ Store.content
      <$> Store.raw r.1.2 !! "ping_8.8.8.8_20240101_000000.csv" = Some 3%nat.
Proof. vm_compute. done. Qed.

End General.

(** * Further properties of the code *)

(** ** What a run of the sampler leaves on disk *)

(** A concrete name or id is plain. *)
Ltac plain :=
  first
    [ split;
      [ vm_compute; repeat (constructor; [split; intros [=]|]); constructor
      | vm_compute; lia ]
    | vm_compute; repeat (constructor; [repeat split; intros [=]|]);
      constructor ].

Section SamplerRuns.

Import Sample PingMonitor.

Variables (m : PingMonitor.t) (file_name : string).

Lemma series_save_data (t : datetime) (rows : list data_point) (d : Store.fs) :
  series file_name (_save_data file_name t rows d) = series file_name d ++ rows.
Proof.
  unfold series, _save_data. cbn [Store.raw]. rewrite lookup_insert_eq.
  by destruct (Store.raw d !! file_name).
Qed.

(** One iteration moves the new point to the end of what is on disk and in
    the buffer together. *)
Lemma loop_body_series (k : tick) (buffer : list data_point) (d : Store.fs) :
  series file_name (loop_body m file_name k (buffer, d)).2
    ++ (loop_body m file_name k (buffer, d)).1
  = series file_name d ++ buffer ++ [point_of m k].
Proof.
  unfold loop_body, point_of. destruct (answer k) as [v|e]; [|done].
  destruct (10 <=? length _)%nat; [|done].
  cbn [fst snd]. by rewrite series_save_data, app_nil_r.
Qed.

Lemma sampling_series (end_time : datetime) (trace : list tick) (st : loop_state) :
  series file_name (sampling m file_name end_time trace st).2
    ++ (sampling m file_name end_time trace st).1
  = series file_name st.2 ++ st.1 ++ (point_of m <$> executed end_time trace).
Proof.
  revert st. induction trace as [|k trace IH]; intros [buffer d];
    cbn [sampling executed].
  - by rewrite app_nil_r.
  - destruct (flag k && (now k <? end_time)); [|by rewrite app_nil_r].
    rewrite IH.
    destruct (loop_body m file_name k (buffer, d)) as [buffer' d'] eqn:Hbody.
    pose proof (loop_body_series k buffer d) as H. rewrite Hbody in H.
    cbn [fst snd] in *. rewrite fmap_cons.
    rewrite (app_assoc (series file_name d')), H.
    by rewrite <- !app_assoc.
Qed.

(** Once the loop is left and the rest of the buffer saved, the series is
    what it was, followed by one point per probe made, in probe order. *)
Lemma after_sampling_series (end_time : datetime) (trace : list tick)
    (exit_time : datetime) (d : Store.fs) :
  series file_name (after_sampling m file_name end_time trace exit_time d)
  = series file_name d ++ (point_of m <$> executed end_time trace).
Proof.
  unfold after_sampling.
  pose proof (sampling_series end_time trace ([], d)) as H.
  destruct (sampling m file_name end_time trace ([], d)) as [buffer d1].
  cbn [fst snd] in H. rewrite app_nil_l in H.
  destruct buffer as [|p buffer].
  - by rewrite app_nil_r in H.
  - by rewrite series_save_data.
Qed.

Lemma point_of_well_formed (k : tick) : well_formed (point_of m k).
Proof.
  unfold well_formed, point_of, latency_of.
  destruct (answer k) as [[ms| |]|e]; simpl; try destruct (negb _); simpl;
    repeat split; try done; try (by intros [? [=]]); eauto.
Qed.



End SamplerRuns.

Section SamplerExtras.

Import Sample PingMonitor.

(** Report generation leaves the series alone. *)
Lemma generate_report_raw (m : PingMonitor.t) (t : datetime) (d d' : Store.fs) :
  _generate_report m t d = Written d' → Store.raw d' = Store.raw d.
Proof.
  unfold _generate_report. destruct (data_file m); [|done].
  destruct (Store.raw d !! _) as [f|]; [|done].
  destruct (length (Store.content f)); [done|]. by intros [= <-].
Qed.

Lemma ping_loop_raw (m : PingMonitor.t) (stamp : string) (trace : list tick)
    (exit_time : datetime) (d : Store.fs) :
  let file_name := data_file_name (target_ip m) stamp in
  Store.raw (_ping_loop m stamp trace exit_time d).1.2
  = Store.raw (after_sampling (set_data_file file_name m) file_name
                 (default 0 (start_time m) + duration m) trace exit_time d).
Proof.
  intros file_name. unfold _ping_loop. fold file_name.
  destruct (_generate_report _ _ _) as [| |d3] eqn:Hrep; [done|done|].
  by apply generate_report_raw in Hrep.
Qed.

(** What is read from a series depends on the raw directory only. *)
Lemma series_raw (file_name : string) (d d' : Store.fs) :
  Store.raw d = Store.raw d' → series file_name d = series file_name d'.
Proof. unfold series. by intros ->. Qed.

(** X1.  When the series' name denotes a file of the raw directory, a run
    of [_ping_loop] adds to its series exactly one row per probe made, in
    the order of the probes, after the rows the file already held, each
    row carrying the target and the outcome of its probe (the time stamps
    are left out of the comparison): no sample is lost, repeated or
    reordered, whether it sat in a batch of ten, in a late batch behind an
    error, or in the rest saved at the exit; and no other series is
    touched. *)
Theorem ping_loop_appends_every_sample (m : PingMonitor.t) (stamp : string)
    (trace : list tick) (exit_time : datetime) (d : Store.fs) :
  let file_name := data_file_name (target_ip m) stamp in
  let end_time := default 0 (start_time m) + duration m in
  let d' := (_ping_loop m stamp trace exit_time d).1.2 in
  Store.plain_name file_name →
  untimed <$> series file_name d'
  = (untimed <$> series file_name d)
    ++ (untimed <$> (point_of m <$> executed end_time trace))
  ∧ ∀ other, other ≠ file_name → Store.raw d' !! other = Store.raw d !! other.
Proof.
  intros file_name end_time d' _. split.
  - unfold d'. rewrite (series_raw file_name _ _ (ping_loop_raw m stamp trace exit_time d)).
    rewrite (after_sampling_series (set_data_file file_name m)).
    by rewrite fmap_app.
  - intros other Hne. unfold d'. rewrite ping_loop_raw.
    unfold after_sampling.
    pose proof (sampling_raw_other (set_data_file file_name m) file_name other
                  end_time trace ([], d) Hne) as H.
    fold file_name end_time.
    destruct (sampling _ file_name end_time trace ([], d)) as [buffer d1].
    simpl in H. destruct buffer; [done|].
    unfold _save_data; simpl. by rewrite lookup_insert_ne.
Qed.

Lemma ping_loop_appends_every_sample_witness :
  let trace := Scenario.ticks Scenario.ok_at 0 9
               ++ [Scenario.raise_at 9; Scenario.timeout_at 10] in
  let d' := (_ping_loop Scenario.monitor1 Scenario.stamp1 trace
               (11 * Scenario.second) Store.empty_fs).1.2 in
  untimed <$> series Scenario.file1 d'
  = (untimed <$> series Scenario.file1 Store.empty_fs)
    ++ (untimed <$> (point_of Scenario.monitor1 <$> executed Scenario.hour trace))
  ∧ ∀ other, other ≠ Scenario.file1 →
             Store.raw d' !! other = Store.raw Store.empty_fs !! other.
Proof.
  apply (ping_loop_appends_every_sample Scenario.monitor1 Scenario.stamp1
           (Scenario.ticks Scenario.ok_at 0 9
            ++ [Scenario.raise_at 9; Scenario.timeout_at 10])
           (11 * Scenario.second) Store.empty_fs).
  plain.
Defined.

(** X2.  If every row of the series already carries a latency exactly when
    it is a success and an error text exactly when it is an error, so does
    every row after a run of [_ping_loop]. *)
Theorem ping_loop_rows_well_formed (m : PingMonitor.t) (stamp : string)
    (trace : list tick) (exit_time : datetime) (d : Store.fs) :
  let file_name := data_file_name (target_ip m) stamp in
  Forall well_formed (series file_name d) →
  Forall well_formed
    (series file_name (_ping_loop m stamp trace exit_time d).1.2).
Proof.
  intros file_name Hd.
  rewrite (series_raw file_name _ _ (ping_loop_raw m stamp trace exit_time d)).
  rewrite (after_sampling_series (set_data_file file_name m)).
  apply Forall_app. split; [done|].
  apply Forall_fmap, Forall_forall. intros k _.
  apply (point_of_well_formed (set_data_file file_name m)).
Qed.

Lemma ping_loop_rows_well_formed_witness :
  Forall well_formed
    (series Scenario.file1
       (_ping_loop Scenario.monitor1 Scenario.stamp1
          (Scenario.ticks Scenario.ok_at 0 9
           ++ [Scenario.raise_at 9; Scenario.timeout_at 10])
          (11 * Scenario.second) Store.empty_fs).1.2).
Proof.
  apply (ping_loop_rows_well_formed Scenario.monitor1 Scenario.stamp1).
  vm_compute. constructor.
Defined.

End SamplerExtras.

Section BatchesAndReports.

Import Sample PingMonitor.

(** While probes return, the buffer stays below ten and what is on disk
    grows by whole batches of ten. *)
Lemma sampling_batches (m : PingMonitor.t) (file_name : string)
    (end_time : datetime) (trace : list tick) (buffer : list data_point)
    (d : Store.fs) :
  Forall (λ k, ∃ v, answer k = Returns v) trace →
  (length buffer < 10)%nat →
  let st := sampling m file_name end_time trace (buffer, d) in
  (length st.1 < 10)%nat
  ∧ ∃ q, length (series file_name st.2)
         = (length (series file_name d) + 10 * q)%nat
         ∧ (10 * q + length st.1
            = length buffer + length (executed end_time trace))%nat.
Proof.
  intros Hall. revert buffer d.
  induction Hall as [|k trace [v Hv] _ IH]; intros buffer d Hlen;
    cbn [sampling executed].
  - split; [done|]. exists 0%nat. simpl. lia.
  - destruct (flag k && (now k <? end_time)).
    2:{ split; [done|]. exists 0%nat. simpl. lia. }
    unfold loop_body at 1 2 3. rewrite Hv, flush_or_not.
    destruct (Nat.leb_spec 9 (length buffer)) as [Hfull|Hroom].
    + destruct (IH [] (_save_data file_name (now k)
                         (buffer ++ [{| timestamp := now k; target := target_ip m;
                                        response_time := latency_of v;
                                        status := if truthy v then success else timeout;
                                        error_text := None |}]) d))
        as (Hlt & q & Hq & Hsum); [simpl; lia|].
      split; [done|]. exists (S q).
      rewrite Hq, series_save_data, length_app, length_app.
      simpl in *. lia.
    + destruct (IH (buffer ++ [{| timestamp := now k; target := target_ip m;
                                  response_time := latency_of v;
                                  status := if truthy v then success else timeout;
                                  error_text := None |}]) d)
        as (Hlt & q & Hq & Hsum); [rewrite length_app; simpl; lia|].
      split; [done|]. exists q. split; [done|].
      rewrite length_app in Hsum. simpl in *. lia.
Qed.

(** X3.  When the series' name denotes a file of the raw directory, in a
    run whose probes all return (none raises), after [n] probes the loop
    has saved [n / 10] batches of exactly ten rows each and holds the other
    [n mod 10] samples in its buffer. *)
Theorem flush_in_tens (m : PingMonitor.t) (file_name : string)
    (end_time : datetime) (trace : list tick) (d : Store.fs) :
  Store.plain_name file_name →
  Forall (λ k, ∃ v, answer k = Returns v) trace →
  let n := length (executed end_time trace) in
  let st := sampling m file_name end_time trace ([], d) in
  length st.1 = (n mod 10)%nat
  ∧ length (series file_name st.2)
    = (length (series file_name d) + 10 * (n / 10))%nat.
Proof.
  intros _ Hall n st.
  destruct (sampling_batches m file_name end_time trace [] d Hall)
    as (Hlt & q & Hq & Hsum); [simpl; lia|].
  fold st in Hlt, Hq, Hsum. fold n in Hsum. simpl in Hsum.
  assert (q = (n / 10)%nat ∧ length st.1 = (n mod 10)%nat) as [<- ->].
  { pose proof (Nat.div_mod_eq n 10).
    pose proof (Nat.mod_upper_bound n 10). lia. }
  done.
Qed.

Lemma flush_in_tens_witness :
  let st := sampling Scenario.monitor1 Scenario.file1 Scenario.hour
              (Scenario.ticks Scenario.ok_at 0 25) ([], Store.empty_fs) in
  length st.1
  = (length (executed Scenario.hour (Scenario.ticks Scenario.ok_at 0 25)) mod 10)%nat
  ∧ length (series Scenario.file1 st.2)
    = (length (series Scenario.file1 Store.empty_fs)
       + 10 * (length (executed Scenario.hour (Scenario.ticks Scenario.ok_at 0 25)) / 10))%nat.
Proof.
  apply (flush_in_tens Scenario.monitor1 Scenario.file1 Scenario.hour
           (Scenario.ticks Scenario.ok_at 0 25) Store.empty_fs).
  - plain.
  - vm_compute. repeat (constructor; [eexists; reflexivity|]). constructor.
Defined.

End BatchesAndReports.

Section Reports.

Import Sample PingMonitor.








End Reports.

(** ** The shape of the registry along a history *)

Section RegistryShape.

Import TaskManager History.

Lemma exec_all_consistent (calls : list (call * datetime)) (tm : t) :
  consistent tm → consistent (exec_all calls tm).
Proof.
  revert tm. induction calls as [|c calls IH]; intros tm H; [done|].
  apply IH. by apply exec_consistent.
Qed.

Lemma init_well_formed (max : Z) : well_formed (init max).
Proof.
  split; [|split]; simpl.
  - intros k i. by rewrite lookup_empty.
  - intros k h. by rewrite lookup_empty.
  - constructor.
Qed.

Lemma register_well_formed (target : string) (hours : Z) (task_id : string)
    (now : datetime) (tm : t) :
  well_formed tm → well_formed (register target hours task_id now tm).2.
Proof.
  intros (Hid & Hmon & Hdone). split; [|split]; simpl; [| |done].
  - intros k i. destruct (decide (k = task_id)) as [->|Hne].
    + rewrite lookup_insert_eq. by intros [= <-].
    + rewrite lookup_insert_ne by done. apply Hid.
  - intros k h. destruct (decide (k = task_id)) as [->|Hne].
    + rewrite lookup_insert_eq. intros [= <-].
      eexists. split.
      { rewrite lookup_app_r by done. by rewrite Nat.sub_diag. }
      done.
    + rewrite lookup_insert_ne by done. intros (m & Hm & Hk)%Hmon.
      exists m. split; [|done]. by apply lookup_app_l_Some.
Qed.

Lemma stop_object_lookup (monitor h : nat) (tm : t) (m : PingMonitor.t) :
  objects tm !! h = Some m →
  ∃ m', objects (stop_object monitor tm) !! h = Some m'
        ∧ PingMonitor.task_id m' = PingMonitor.task_id m.
Proof.
  intros Hm. unfold stop_object; simpl. rewrite list_lookup_alter.
  destruct (decide (monitor = h)) as [->|Hne]; [|eauto].
  rewrite Hm. simpl. eauto.
Qed.

Lemma stop_object_well_formed (monitor : nat) (tm : t) :
  well_formed tm → well_formed (stop_object monitor tm).
Proof.
  intros (Hid & Hmon & Hdone). split; [|split]; [done| |done].
  intros k h (m & Hm & Hk)%Hmon.
  destruct (stop_object_lookup monitor h tm m Hm) as (m' & Hm' & Hk').
  exists m'. split; [done|congruence].
Qed.

Lemma stop_task_well_formed (task_id : string) (now : datetime) (tm : t) :
  well_formed tm → well_formed (stop_task task_id now tm).2.
Proof.
  intros Hwf. unfold stop_task.
  destruct (active_tasks tm !! task_id) as [monitor|]; [|done].
  apply (stop_object_well_formed monitor) in Hwf.
  destruct (task_history (stop_object monitor tm) !! task_id) as [i|] eqn:Hi;
    [|done].
  destruct Hwf as (Hid & Hmon & Hdone). split; [|split]; simpl; [| |done].
  - intros k i'. destruct (decide (k = task_id)) as [->|Hne].
    + rewrite lookup_insert_eq. intros [= <-]. simpl. by apply Hid.
    + rewrite lookup_insert_ne by done. apply Hid.
  - intros k h. destruct (decide (k = task_id)) as [->|Hne].
    + by rewrite lookup_delete_eq.
    + rewrite lookup_delete_ne by done. apply Hmon.
Qed.

Lemma finish_well_formed (task_id : string) (now : datetime) (tm : t) :
  well_formed tm → well_formed (finish task_id now tm).
Proof.
  intros (Hid & Hmon & Hdone).
  assert (∀ k h, delete task_id (active_tasks tm) !! k = Some h →
                 ∃ m, objects tm !! h = Some m ∧ PingMonitor.task_id m = k)
    as Hmon'.
  { intros k h. destruct (decide (k = task_id)) as [->|Hne].
    - by rewrite lookup_delete_eq.
    - rewrite lookup_delete_ne by done. apply Hmon. }
  unfold finish. destruct (task_history tm !! task_id) as [i|] eqn:Hi.
  - split; [|split]; simpl; [|done|].
    + intros k i'. destruct (decide (k = task_id)) as [->|Hne].
      * rewrite lookup_insert_eq. intros [= <-]. simpl. by apply Hid.
      * rewrite lookup_insert_ne by done. apply Hid.
    + apply Forall_app. split; [done|]. constructor; [|constructor].
      simpl. eauto.
  - by split; [|split].
Qed.

Lemma update_progress_well_formed (task_id : string) (p : float) (seconds : Z)
    (tm : t) :
  well_formed tm → well_formed (update_progress task_id p seconds tm).
Proof.
  intros (Hid & Hmon & Hdone). split; [|split]; simpl; [|done|done].
  intros k i. rewrite lookup_alter.
  destruct (decide (task_id = k)) as [->|Hne]; [|apply Hid].
  destruct (task_history tm !! k) as [i0|] eqn:Hi0; [|done].
  simpl. intros [= <-]. simpl. by apply Hid.
Qed.

Lemma cleanup_well_formed (days now : Z) (tm : t) :
  well_formed tm → well_formed (cleanup_old_tasks days now tm).
Proof.
  intros (Hid & Hmon & Hdone). split; [|split]; [|done|].
  - intros k i. rewrite lookup_cleanup_history.
    destruct (task_history tm !! k) as [i0|] eqn:Hi0; [|done].
    destruct (decide _); [done|]. intros [= <-]. by apply Hid.
  - simpl. apply Forall_forall. intros i [_ Hin]%list_elem_of_filter.
    by apply (proj1 (Forall_forall _ _) Hdone).
Qed.

Lemma exec_well_formed (tm : t) (c : call * datetime) :
  well_formed tm → well_formed (exec tm c).
Proof.
  destruct c as [[target hours uuid|task_id|w|days] now]; simpl; intros Hwf.
  - unfold create_task. destruct (at_capacity tm); [done|].
    by apply (register_well_formed target hours (short_id uuid) now).
  - by apply stop_task_well_formed.
  - unfold _monitor_task. destruct (monitor_is_running _ _).
    + destruct (now >=? _).
      * by apply finish_well_formed, stop_object_well_formed.
      * destruct (progress_of _ _); [done|].
        by apply update_progress_well_formed.
    + by apply finish_well_formed.
  - by apply cleanup_well_formed.
Qed.

Lemma exec_all_well_formed (calls : list (call * datetime)) (tm : t) :
  well_formed tm → well_formed (exec_all calls tm).
Proof.
  revert tm. induction calls as [|c calls IH]; intros tm H; [done|].
  apply IH. by apply exec_well_formed.
Qed.

End RegistryShape.

(** ** Watcher, stop and admission *)

Section SchedulerExtras.

Import TaskManager History.

Lemma finish_objects (task_id : string) (now : datetime) (tm : t) :
  objects (finish task_id now tm) = objects tm.
Proof. unfold finish. by destruct (task_history tm !! task_id). Qed.

Lemma finish_active (task_id : string) (now : datetime) (tm : t) :
  active_tasks (finish task_id now tm) = delete task_id (active_tasks tm).
Proof. unfold finish. by destruct (task_history tm !! task_id). Qed.

Lemma finish_history (task_id : string) (now : datetime) (tm : t) (k : string) :
  task_history (finish task_id now tm) !! k
  = if decide (k = task_id) then mark_completed now <$> task_history tm !! k
    else task_history tm !! k.
Proof.
  unfold finish. destruct (decide (k = task_id)) as [->|Hne].
  - destruct (task_history tm !! task_id) as [i|] eqn:Hi; simpl.
    + by rewrite lookup_insert_eq.
    + by rewrite Hi.
  - destruct (task_history tm !! task_id); simpl; [|done].
    by rewrite lookup_insert_ne.
Qed.

Lemma stopped_object_not_running (monitor : nat) (tm : t) :
  monitor_is_running monitor (stop_object monitor tm) = false.
Proof.
  unfold monitor_is_running, stop_object; simpl.
  rewrite list_lookup_alter, decide_True by done.
  by destruct (objects tm !! monitor).
Qed.

(** X7.  As long as the clock read by the watcher is not earlier than the
    one it read when it started, a wake-up never raises, it sleeps or ends:
    the division by [duration_hours * 3600] is reached only before the
    deadline, and with a duration of zero the deadline is the start. *)
Theorem watcher_never_raises (w : watcher) (now : datetime) (tm : t) :
  w_start_time w <= now →
  ∃ tm', _monitor_task w now tm = Sleeps tm' ∨ _monitor_task w now tm = Ends tm'.
Proof.
  intros Hclock. unfold _monitor_task.
  destruct (monitor_is_running _ _); [|eauto].
  destruct (Z.geb_spec now (w_end_time w)) as [|Hbefore]; [eauto|].
  unfold progress_of.
  destruct (Z.eqb_spec (w_duration_hours w * 3600) 0) as [Hzero|]; [|eauto].
  exfalso. unfold w_end_time, timedelta_hours in Hbefore. lia.
Qed.

Lemma watcher_never_raises_witness :
  let w := {| w_task_id := Scenario.id1; w_monitor := 0%nat;
              w_duration_hours := 0; w_start_time := 0 |} in
  let tm := (create_task Scenario.host 0 Scenario.uuid1 0 (init 5)).2 in
  ∃ tm', _monitor_task w 0 tm = Sleeps tm' ∨ _monitor_task w 0 tm = Ends tm'.
Proof.
  apply (watcher_never_raises
           {| w_task_id := Scenario.id1; w_monitor := 0%nat;
              w_duration_hours := 0; w_start_time := 0 |} 0).
  simpl. lia.
Defined.

Lemma monitor_task_one_clock (w : watcher) (now : datetime) (tm : t) :
  _monitor_task_at w now now tm = _monitor_task w now tm.
Proof. reflexivity. Qed.

(** X8.  A wake-up at or after the deadline ends the watcher whatever the
    flag says: afterwards the monitor's flag is cleared, the task is not
    active, its record (if it has one) says [completed] with progress 100
    and, as end time, the clock read in the final block (a later reading
    than the one compared with the deadline), that record has been added
    at the end of [completed_tasks], and no other task is touched. *)
Theorem watcher_ends_at_deadline (w : watcher)
    (current_time final_time : datetime) (tm : t) :
  w_end_time w <= current_time →
  ∃ tm',
    _monitor_task_at w current_time final_time tm = Ends tm'
    ∧ monitor_is_running (w_monitor w) tm' = false
    ∧ active_tasks tm' !! w_task_id w = None
    ∧ (∀ i, task_history tm !! w_task_id w = Some i →
            task_history tm' !! w_task_id w = Some (mark_completed final_time i)
            ∧ last (completed_tasks tm') = Some (mark_completed final_time i)
            ∧ length (completed_tasks tm') = S (length (completed_tasks tm)))
    ∧ (∀ k, k ≠ w_task_id w →
            task_history tm' !! k = task_history tm !! k
            ∧ active_tasks tm' !! k = active_tasks tm !! k).
Proof.
  intros Hlate. unfold _monitor_task_at.
  destruct (monitor_is_running (w_monitor w) tm) eqn:Hflag.
  - destruct (Z.geb_spec current_time (w_end_time w)); [|lia].
    eexists. split; [reflexivity|].
    split.
    { unfold monitor_is_running. rewrite finish_objects.
      apply stopped_object_not_running. }
    split; [by rewrite finish_active, lookup_delete_eq|].
    split.
    + intros i Hi. rewrite finish_history, decide_True by done.
      cbn [task_history stop_object set_objects]. rewrite Hi.
      split; [done|]. unfold finish.
      cbn [task_history stop_object set_objects completed_tasks]. rewrite Hi.
      cbn [completed_tasks]. rewrite last_snoc, length_app. simpl.
      split; [done|lia].
    + intros k Hne. rewrite finish_history, decide_False by done.
      rewrite finish_active, lookup_delete_ne by done. done.
  - eexists. split; [reflexivity|].
    split.
    { unfold monitor_is_running in *. by rewrite finish_objects. }
    split; [by rewrite finish_active, lookup_delete_eq|].
    split.
    + intros i Hi. rewrite finish_history, decide_True by done.
      rewrite Hi. split; [done|]. unfold finish. rewrite Hi.
      cbn [completed_tasks]. rewrite last_snoc, length_app. simpl.
      split; [done|lia].
    + intros k Hne. rewrite finish_history, decide_False by done.
      rewrite finish_active, lookup_delete_ne by done. done.
Qed.

Lemma watcher_ends_at_deadline_witness :
  let tm := (create_task Scenario.host 1 Scenario.uuid1 0 (init 5)).2 in
  let final_time := Scenario.hour + Scenario.second in
  ∃ tm',
    _monitor_task_at Scenario.watcher1 Scenario.hour final_time tm = Ends tm'
    ∧ monitor_is_running (w_monitor Scenario.watcher1) tm' = false
    ∧ active_tasks tm' !! w_task_id Scenario.watcher1 = None
    ∧ (∀ i, task_history tm !! w_task_id Scenario.watcher1 = Some i →
            task_history tm' !! w_task_id Scenario.watcher1
            = Some (mark_completed final_time i)
            ∧ last (completed_tasks tm') = Some (mark_completed final_time i)
            ∧ length (completed_tasks tm') = S (length (completed_tasks tm)))
    ∧ (∀ k, k ≠ w_task_id Scenario.watcher1 →
            task_history tm' !! k = task_history tm !! k
            ∧ active_tasks tm' !! k = active_tasks tm !! k).
Proof.
  apply (watcher_ends_at_deadline Scenario.watcher1 Scenario.hour
           (Scenario.hour + Scenario.second)).
  vm_compute. discriminate.
Defined.

(** X9.  In every state a manager can reach through a history of calls,
    [stop_task] raises no [KeyError]: an active task always has a record.
    It answers [True] exactly when the task is active. *)
Theorem stop_task_never_raises (max : Z) (calls : list (call * datetime))
    (task_id : string) (now : datetime) :
  let tm := exec_all calls (init max) in
  (stop_task task_id now tm).1
  = inr (bool_decide (is_Some (active_tasks tm !! task_id))).
Proof.
  intros tm.
  assert (consistent tm) as Hc
    by apply exec_all_consistent, init_consistent.
  unfold stop_task.
  destruct (active_tasks tm !! task_id) as [monitor|] eqn:Hactive.
  - destruct (proj1 (Hc task_id)) as (i & Hi & _); [by rewrite Hactive|].
    cbn [task_history stop_object set_objects]. rewrite Hi.
    by rewrite bool_decide_eq_true_2 by eauto.
  - by rewrite bool_decide_eq_false_2 by (by intros [? [=]]).
Qed.

(** X10.  In every state a manager can reach, each record of the history
    is filed under its own id, each active task points to an existing
    monitor that was built for its id, and each record of
    [completed_tasks] says [completed] and carries an end time. *)
Theorem registry_well_formed (max : Z) (calls : list (call * datetime)) :
  well_formed (exec_all calls (init max)).
Proof. apply exec_all_well_formed, init_well_formed. Qed.

(** X11.  With a non-negative ceiling, in every reachable state, a
    [stop_task] that answers [True] leaves room under the ceiling: the next
    [create_task] is admitted, whatever its target and for every duration
    that [timedelta] accepts. *)
Theorem stop_makes_room (max : Z) (calls : list (call * datetime))
    (task_id : string) (now : datetime) :
  0 <= max →
  let tm := exec_all calls (init max) in
  (stop_task task_id now tm).1 = inr true →
  at_capacity (stop_task task_id now tm).2 = false
  ∧ ∀ target hours uuid now',
      timedelta_in_range hours →
      ∃ w tm', create_task target hours uuid now' (stop_task task_id now tm).2
               = (inr (short_id uuid, w), tm').
Proof.
  intros Hmax tm Hstop.
  destruct (exec_all_invariant calls (init max)) as (_ & Hw & Hm).
  { split; [apply init_consistent|]. unfold within_ceiling; simpl.
    rewrite map_size_empty. lia. }
  fold tm in Hw, Hm. unfold within_ceiling in Hw.
  assert (at_capacity (stop_task task_id now tm).2 = false) as Hroom.
  { revert Hstop. unfold stop_task.
    destruct (active_tasks tm !! task_id) as [monitor|] eqn:Hactive; [|done].
    cbn [task_history stop_object set_objects].
    destruct (task_history tm !! task_id) as [i|]; [|done].
    intros _. unfold at_capacity. cbn.
    rewrite map_size_delete, Hactive.
    assert (size (active_tasks tm) ≠ 0%nat) as Hpos.
    { intros Hz%map_size_empty_iff. by rewrite Hz, lookup_empty in Hactive. }
    destruct (Z.geb_spec (Z.of_nat (Init.Nat.pred (size (active_tasks tm))))
                (max_concurrent_tasks tm)); [lia|done]. }
  split; [done|]. intros target hours uuid now' _.
  unfold create_task. rewrite Hroom. eexists _, _. reflexivity.
Qed.

Lemma stop_makes_room_witness :
  let tm := exec_all [(Create Scenario.host 1 Scenario.uuid1, 0)] (init 1) in
  at_capacity (stop_task Scenario.id1 1 tm).2 = false
  ∧ ∀ target hours uuid now',
      timedelta_in_range hours →
      ∃ w tm', create_task target hours uuid now' (stop_task Scenario.id1 1 tm).2
               = (inr (short_id uuid, w), tm').
Proof.
  apply (stop_makes_room 1 [(Create Scenario.host 1 Scenario.uuid1, 0)]
           Scenario.id1 1).
  - lia.
  - vm_compute. reflexivity.
Defined.

End SchedulerExtras.

(** ** The listing of tasks *)

Section Listing.

Import TaskManager History.

Lemma elem_of_get_all_tasks (tm : t) (i : task_info) :
  i ∈ get_all_tasks tm
  ↔ i ∈ completed_tasks tm
    ∨ ∃ k, is_Some (active_tasks tm !! k) ∧ task_history tm !! k = Some i.
Proof.
  unfold get_all_tasks. rewrite merge_sort_Permutation, elem_of_app,
    list_elem_of_omap.
  split.
  - intros [([k h] & Hin%elem_of_map_to_list & Hi)|Hc]; [|by left].
    right. exists k. simpl in Hi. eauto.
  - intros [Hc|(k & [h Hh] & Hi)]; [by right|].
    left. exists (k, h). split; [by apply elem_of_map_to_list|done].
Qed.

Lemma length_omap_total {A B} (f : A → option B) (l : list A) :
  Forall (λ x, is_Some (f x)) l → length (omap f l) = length l.
Proof.
  induction 1 as [|x l [y Hy] _ IH]; [done|].
  cbn [omap list_omap]. rewrite Hy. simpl. by rewrite IH.
Qed.

(** X12.  [get_all_tasks] lists exactly the records of [completed_tasks]
    and the records of the active tasks, and lists them by start time,
    latest first. *)
Theorem get_all_tasks_sorted (tm : t) :
  StronglySorted (λ a b, start_time b <= start_time a) (get_all_tasks tm)
  ∧ ∀ i, i ∈ get_all_tasks tm
         ↔ i ∈ completed_tasks tm
           ∨ ∃ k, is_Some (active_tasks tm !! k) ∧ task_history tm !! k = Some i.
Proof.
  split; [|apply elem_of_get_all_tasks].
  unfold get_all_tasks.
  assert (Transitive later_first)
    by (intros a b c; unfold later_first; lia).
  assert (Total later_first) by (intros a b; unfold later_first; lia).
  apply (StronglySorted_merge_sort later_first).
Qed.

(** X13.  In every state a manager can reach, the listing has one entry
    per active task and one per record of [completed_tasks], and every
    entry says [running] or [completed]: a task that was stopped and whose
    watcher has not yet run its final block is not listed at all, and no
    entry ever says [stopped]. *)
Theorem get_all_tasks_never_lists_stopped (max : Z)
    (calls : list (call * datetime)) :
  let tm := exec_all calls (init max) in
  length (get_all_tasks tm)
  = (size (active_tasks tm) + length (completed_tasks tm))%nat
  ∧ Forall (λ i, status i = running ∨ status i = completed) (get_all_tasks tm).
Proof.
  intros tm.
  assert (consistent tm) as Hc by apply exec_all_consistent, init_consistent.
  assert (well_formed tm) as (_ & _ & Hdone)
    by apply exec_all_well_formed, init_well_formed.
  split.
  - unfold get_all_tasks.
    rewrite (Permutation_length (merge_sort_Permutation _ _)), length_app.
    rewrite length_omap_total, length_map_to_list; [done|].
    apply Forall_forall. intros [k h] Hin%elem_of_map_to_list. simpl.
    destruct (proj1 (Hc k)) as (i & Hi & _); eauto.
  - apply Forall_forall. intros i [Hin|(k & Hk & Hi)]%elem_of_get_all_tasks.
    + right. by apply (proj1 (Forall_forall _ _) Hdone i Hin).
    + left. destruct (proj1 (Hc k) Hk) as (i' & Hi' & Hrun). congruence.
Qed.

(** X14.  When a task id is issued again, for a duration that [timedelta]
    accepts, while the first task under it is
    still active, the new monitor takes the place of the old one in the
    active set, which does not grow; a [stop_task] on the id then stops the
    new monitor only: the first monitor is left exactly as it was and no
    active entry leads to it any more. *)
Theorem reused_id_orphans_monitor (target : string) (hours : Z) (uuid : string)
    (now now' : datetime) (tm : t) (h : nat) (m0 : PingMonitor.t) :
  timedelta_in_range hours →
  active_tasks tm !! short_id uuid = Some h →
  objects tm !! h = Some m0 →
  at_capacity tm = false →
  let tm1 := (create_task target hours uuid now tm).2 in
  let tm2 := (stop_task (short_id uuid) now' tm1).2 in
  active_tasks tm1 !! short_id uuid = Some (length (objects tm))
  ∧ size (active_tasks tm1) = size (active_tasks tm)
  ∧ (stop_task (short_id uuid) now' tm1).1 = inr true
  ∧ objects tm2 !! h = Some m0
  ∧ monitor_is_running (length (objects tm)) tm2 = false
  ∧ active_tasks tm2 !! short_id uuid = None.
Proof.
  intros _ Hactive Hobj Hroom tm1 tm2.
  assert (h < length (objects tm))%nat as Hlt by by eapply lookup_lt_Some.
  unfold tm2, tm1, create_task. rewrite Hroom. cbn [snd register].
  unfold stop_task. cbn [active_tasks]. rewrite lookup_insert_eq.
  cbn [task_history stop_object set_objects]. rewrite lookup_insert_eq.
  cbn [fst snd active_tasks objects].
  split; [done|].
  split; [apply map_size_insert_Some; eauto|].
  split; [done|].
  split.
  { cbn [objects stop_object set_objects].
    rewrite list_lookup_alter_ne by lia. by apply lookup_app_l_Some. }
  split.
  { unfold monitor_is_running. cbn [objects stop_object set_objects].
    rewrite list_lookup_alter, decide_True by done.
    rewrite lookup_app_r by done. by rewrite Nat.sub_diag. }
  by rewrite lookup_delete_eq.
Qed.

Lemma reused_id_orphans_monitor_witness :
  let tm := (create_task Scenario.host 1 Scenario.uuid1 0 (init 5)).2 in
  let tm1 := (create_task Scenario.host 2 Scenario.uuid1 7 tm).2 in
  let tm2 := (stop_task (short_id Scenario.uuid1) 9 tm1).2 in
  active_tasks tm1 !! short_id Scenario.uuid1 = Some (length (objects tm))
  ∧ size (active_tasks tm1) = size (active_tasks tm)
  ∧ (stop_task (short_id Scenario.uuid1) 9 tm1).1 = inr true
  ∧ objects tm2 !! 0%nat = Some Scenario.monitor1
  ∧ monitor_is_running (length (objects tm)) tm2 = false
  ∧ active_tasks tm2 !! short_id Scenario.uuid1 = None.
Proof.
  apply (reused_id_orphans_monitor Scenario.host 2 Scenario.uuid1 7 9
           (create_task Scenario.host 1 Scenario.uuid1 0 (init 5)).2
           0%nat Scenario.monitor1).
  - unfold timedelta_in_range. vm_compute. split; discriminate.
  - vm_compute. reflexivity.
  - vm_compute. reflexivity.
  - vm_compute. reflexivity.
Defined.

End Listing.

(** ** Repeated cleaning *)

Section RepeatedCleaning.

Import TaskManager.

Lemma filter_newer_twice (c1 c2 : datetime) (l : list task_info) :
  c1 <= c2 →
  filter (λ task, c2 < task_time task) (filter (λ task, c1 < task_time task) l)
  = filter (λ task, c2 < task_time task) l.
Proof.
  intros Hle. induction l as [|i l IH]; [done|].
  rewrite !filter_cons.
  destruct (decide (c1 < task_time i)).
  - rewrite filter_cons. destruct (decide (c2 < task_time i)); by rewrite IH.
  - rewrite decide_False by lia. done.
Qed.

Lemma manager_ext (a b : t) :
  max_concurrent_tasks a = max_concurrent_tasks b →
  active_tasks a = active_tasks b →
  completed_tasks a = completed_tasks b →
  task_history a = task_history b →
  objects a = objects b →
  a = b.
Proof. destruct a, b; simpl. by intros -> -> -> -> ->. Qed.

(** X15.  Cleaning the registry again at a later time with the same
    retention gives what a single cleaning at the later time gives; in
    particular cleaning twice at the same time changes nothing more. *)
Theorem cleanup_old_tasks_composes (days now1 now2 : Z) (tm : t) :
  now1 <= now2 →
  cleanup_old_tasks days now2 (cleanup_old_tasks days now1 tm)
  = cleanup_old_tasks days now2 tm.
Proof.
  intros Hle. apply manager_ext; [done|done| | |done].
  - cbn [cleanup_old_tasks completed_tasks]. apply filter_newer_twice. lia.
  - apply map_eq. intros k. rewrite !lookup_cleanup_history.
    destruct (task_history tm !! k) as [i|]; [|done].
    destruct (decide (status i = completed ∧ task_time i < now1 - _))
      as [[Hs Ht]|Hno]; [|done].
    rewrite decide_True; [done|]. split; [done|lia].
Qed.

Lemma cleanup_old_tasks_composes_witness :
  cleanup_old_tasks 7 (31 * Scenario.day)
    (cleanup_old_tasks 7 (2 * Scenario.day) (App.task_manager Scenario.finished_job))
  = cleanup_old_tasks 7 (31 * Scenario.day) (App.task_manager Scenario.finished_job).
Proof.
  apply (cleanup_old_tasks_composes 7 (2 * Scenario.day) (31 * Scenario.day)).
  vm_compute. discriminate.
Defined.

Lemma fs_ext (a b : Store.fs) :
  Store.raw a = Store.raw b →
  Store.reports a = Store.reports b →
  Store.processed a = Store.processed b →
  a = b.
Proof. destruct a, b; simpl. by intros -> -> ->. Qed.

Lemma unlink_older_twice {A} (dir : gmap string (Store.file A))
    (pattern : string) (c1 c2 : datetime) :
  c1 <= c2 →
  Store.unlink_older (Store.unlink_older dir pattern c1) pattern c2
  = Store.unlink_older dir pattern c2.
Proof.
  intros Hle. apply map_eq. intros n. rewrite !lookup_unlink_older.
  destruct (dir !! n) as [f|]; [|done].
  destruct (glob_match pattern n); simpl; [|done].
  destruct (Z.ltb_spec (Store.st_mtime f) c1); [|done].
  destruct (Z.ltb_spec (Store.st_mtime f) c2); [done|lia].
Qed.

(** X16.  Cleaning the store again at a later time with the same retention
    gives what a single cleaning at the later time gives: the hourly
    cleaning never removes anything that the latest run alone would have
    kept. *)
Theorem clean_old_data_composes (days now1 now2 : Z) (d : Store.fs) :
  now1 <= now2 →
  Store.clean_old_data days now2 (Store.clean_old_data days now1 d)
  = Store.clean_old_data days now2 d.
Proof.
  intros Hle. apply fs_ext; cbn [Store.clean_old_data Store.raw Store.reports
                                 Store.processed];
    apply unlink_older_twice; lia.
Qed.

Lemma clean_old_data_composes_witness :
  Store.clean_old_data 30 (40 * Scenario.day)
    (Store.clean_old_data 30 (10 * Scenario.day) Scenario.three_samples)
  = Store.clean_old_data 30 (40 * Scenario.day) Scenario.three_samples.
Proof.
  apply (clean_old_data_composes 30 (10 * Scenario.day) (40 * Scenario.day)).
  vm_compute. discriminate.
Defined.

End RepeatedCleaning.

(** ** Loading a series, and the routes that read and create *)

Section LoadingAndRoutes.

Import TaskManager.

Lemma elem_of_concat {A} (x : A) (ls : list (list A)) :
  x ∈ concat ls ↔ ∃ l, l ∈ ls ∧ x ∈ l.
Proof.
  rewrite list_elem_of_In, in_concat. split.
  - intros (l & Hl & Hx). exists l. by rewrite !list_elem_of_In.
  - intros (l & Hl & Hx). exists l. by rewrite <- !list_elem_of_In.
Qed.

Lemma omap_lookup_files {A} (dir : gmap string (Store.file A))
    (names : list string) :
  Forall (λ n, is_Some (dir !! n)) names →
  let files := omap (λ n, pair n <$> dir !! n) names in
  files.*1 = names
  ∧ Store.content <$> files.*2 = omap (λ n, Store.content <$> dir !! n) names.
Proof.
  induction 1 as [|n names [f Hf] _ [IH1 IH2]]; [done|].
  cbn [omap list_omap]. rewrite Hf. cbn. simpl in IH1, IH2.
  by rewrite IH1, IH2.
Qed.

(** X17.  For a plain task id, on a raw directory none of whose series
    holds an error row (so that every file reads back), [load_task_data]
    takes the files whose names match [ping_<task_id>_*.csv], each once,
    in the order of their names: it answers not-found when there is none,
    and otherwise one row per row of these files, one file after the
    other, in the order of the rows and with their repetitions, each with
    the time stamp and the status of the row it comes from. *)
Theorem load_task_data_rows (d : Store.fs) (task_id : string) :
  let pattern := "ping_" +:+ task_id +:+ "_*.csv" in
  Store.plain_id task_id →
  Forall (λ nf, Forall (λ p, Sample.error_text p = None) (Store.content nf.2))
         (map_to_list (Store.raw d)) →
  ∃ files : list (string * Store.file (list Sample.data_point)),
    Sorted name_le files.*1
    ∧ NoDup files.*1
    ∧ (∀ n f, (n, f) ∈ files
              ↔ Store.raw d !! n = Some f ∧ glob_match pattern n = true)
    ∧ match files with
      | [] => Store.load_task_data d task_id = None
      | _ => ∃ data,
          Store.load_task_data d task_id = Some data
          ∧ Sample.as_text <$> data
            = Sample.as_text <$> concat (Store.content <$> files.*2)
      end.
Proof.
  intros pattern _ _.
  set (names := sorted_names (Store.glob (Store.raw d) pattern)).
  assert (∀ n, n ∈ names
               ↔ is_Some (Store.raw d !! n) ∧ glob_match pattern n = true)
    as Hnames.
  { intros n. unfold names, sorted_names.
    rewrite merge_sort_Permutation. apply elem_of_glob. }
  assert (Forall (λ n, is_Some (Store.raw d !! n)) names) as Hall.
  { apply Forall_forall. intros n Hn. by apply Hnames in Hn as [? _]. }
  destruct (omap_lookup_files (Store.raw d) names Hall) as [Hfst Hsnd].
  set (files := omap (λ n, pair n <$> Store.raw d !! n) names) in *.
  exists files. rewrite Hfst.
  split.
  { unfold names, sorted_names. apply Sorted_merge_sort.
    intros a b. unfold name_le.
    destruct (String.leb_total a b); eauto. }
  split.
  { unfold names, sorted_names. rewrite merge_sort_Permutation.
    unfold Store.glob. apply NoDup_filter, NoDup_fst_map_to_list. }
  split.
  { intros n f. unfold files. rewrite list_elem_of_omap. split.
    - intros (n' & Hn' & Heq).
      destruct (Store.raw d !! n') as [f'|] eqn:Hf'; [|done].
      injection Heq as -> ->. split; [done|]. by apply Hnames in Hn' as [_ ?].
    - intros [Hf Hm]. exists n. split; [apply Hnames; eauto|].
      by rewrite Hf. }
  unfold Store.load_task_data. fold pattern.
  assert (length names = length (Store.glob (Store.raw d) pattern)) as Hlen.
  { unfold names, sorted_names. by rewrite merge_sort_Permutation. }
  assert (length files = length names) as Hlen'.
  { by rewrite <- Hfst, length_fmap. }
  fold names.
  destruct (Store.glob (Store.raw d) pattern) as [|n0 rest].
  { destruct files; [done|]. simpl in *. lia. }
  destruct files as [|[n1 f1] files'] eqn:Hfiles; [simpl in *; lia|].
  rewrite <- Hsnd. eexists. split; [reflexivity|done].
Qed.

Lemma load_task_data_rows_witness :
  ∃ files : list (string * Store.file (list Sample.data_point)),
    Sorted name_le files.*1
    ∧ NoDup files.*1
    ∧ (∀ n f, (n, f) ∈ files
              ↔ Store.raw Scenario.three_samples !! n = Some f
                ∧ glob_match ("ping_" +:+ Scenario.host +:+ "_*.csv") n = true)
    ∧ match files with
      | [] => Store.load_task_data Scenario.three_samples Scenario.host = None
      | _ => ∃ data,
          Store.load_task_data Scenario.three_samples Scenario.host = Some data
          ∧ Sample.as_text <$> data
            = Sample.as_text <$> concat (Store.content <$> files.*2)
      end.
Proof.
  apply (load_task_data_rows Scenario.three_samples Scenario.host).
  - plain.
  - vm_compute. repeat constructor.
Defined.

(** X18.  A request to create a job that is not answered with a task id
    changes nothing in the application; one that is answered with a task
    id has registered that id as active, with a record that says [running],
    progress 0 and the time of the request as start time. *)
Theorem start_ping_all_or_nothing (f : App.form) (uuid : string)
    (now : datetime) (a : App.state) :
  match (App.start_ping f uuid now a).1 with
  | App.Success task_id =>
      task_id = short_id uuid
      ∧ is_Some (active_tasks (App.task_manager (App.start_ping f uuid now a).2)
                   !! task_id)
      ∧ ∃ i, get_task_status task_id
               (App.task_manager (App.start_ping f uuid now a).2) = Some i
             ∧ status i = running
             ∧ progress i = 0%float
             ∧ start_time i = now
             ∧ id i = task_id
  | _ => (App.start_ping f uuid now a).2 = a
  end.
Proof.
  unfold App.start_ping.
  destruct (App.f_duration_hours f) as [|n|]; [| |done].
  - destruct (bool_decide _); [done|]. cbn [Z.gtb Z.compare Pos.compare
      Pos.compare_cont]. unfold create_task.
    destruct (at_capacity _); [by destruct a|].
    cbn. rewrite lookup_insert_eq. split; [done|]. split; [eauto|].
    unfold get_task_status. cbn. rewrite lookup_insert_eq. eauto 10.
  - destruct (bool_decide _); [done|]. destruct (n >? 24); [done|].
    unfold create_task.
    destruct (at_capacity _); [by destruct a|].
    cbn. rewrite lookup_insert_eq. split; [done|]. split; [eauto|].
    unfold get_task_status. cbn. rewrite lookup_insert_eq. eauto 10.
Qed.

(** X19.  On a raw directory none of whose series holds an error row, the
    data route answers not-found exactly when nothing can be loaded for the
    id; otherwise its three columns have the same length, at most 1000, and
    are the columns of the last rows of the series, all of them when the
    series has at most 1000 rows. *)
Theorem task_data_recent (task_id : string) (a : App.state) :
  Forall (λ nf, Forall (λ p, Sample.error_text p = None) (Store.content nf.2))
         (map_to_list (Store.raw (App.data_manager a))) →
  match Store.load_task_data (App.data_manager a) task_id with
  | None => App.task_data task_id a = App.NotFound
  | Some data =>
      ∃ recent,
        App.task_data task_id a
        = App.Columns (Sample.timestamp <$> recent)
                      (Sample.response_time <$> recent)
                      (Sample.status <$> recent)
        ∧ recent `suffix_of` data
        ∧ length recent = Nat.min 1000 (length data)
        ∧ ((length data <= 1000)%nat → recent = data)
  end.
Proof.
  intros _. unfold App.task_data.
  destruct (Store.load_task_data (App.data_manager a) task_id) as [data|];
    [|done].
  eexists. split; [reflexivity|].
  split; [apply suffix_drop|]. split.
  - rewrite length_drop. lia.
  - intros Hshort. rewrite Nat.min_r by done.
    by rewrite Nat.sub_diag, drop_0.
Qed.

Lemma task_data_recent_witness :
  let a := {| App.task_manager := init 5;
              App.data_manager := Scenario.three_samples |} in
  match Store.load_task_data (App.data_manager a) Scenario.host with
  | None => App.task_data Scenario.host a = App.NotFound
  | Some data =>
      ∃ recent,
        App.task_data Scenario.host a
        = App.Columns (Sample.timestamp <$> recent)
                      (Sample.response_time <$> recent)
                      (Sample.status <$> recent)
        ∧ recent `suffix_of` data
        ∧ length recent = Nat.min 1000 (length data)
        ∧ ((length data <= 1000)%nat → recent = data)
  end.
Proof.
  apply (task_data_recent Scenario.host
           {| App.task_manager := init 5;
              App.data_manager := Scenario.three_samples |}).
  vm_compute. repeat constructor.
Defined.

End LoadingAndRoutes.

(** ** What a run and a wake-up leave alone *)

Section Frames.

Import Sample PingMonitor.

Lemma sampling_reports (m : PingMonitor.t) (file_name : string)
    (end_time : datetime) (trace : list tick) (st : loop_state) :
  Store.reports (sampling m file_name end_time trace st).2 = Store.reports st.2
  ∧ Store.processed (sampling m file_name end_time trace st).2
    = Store.processed st.2.
Proof.
  revert st. induction trace as [|k trace IH]; intros st; [done|].
  cbn [sampling]. destruct (flag k && (now k <? end_time)); [|done].
  destruct (IH (loop_body m file_name k st)) as [-> ->].
  apply loop_body_reports.
Qed.

Lemma after_sampling_reports (m : PingMonitor.t) (file_name : string)
    (end_time : datetime) (trace : list tick) (exit_time : datetime)
    (d : Store.fs) :
  Store.reports (after_sampling m file_name end_time trace exit_time d)
  = Store.reports d
  ∧ Store.processed (after_sampling m file_name end_time trace exit_time d)
    = Store.processed d.
Proof.
  unfold after_sampling.
  pose proof (sampling_reports m file_name end_time trace ([], d)) as H.
  destruct (sampling m file_name end_time trace ([], d)) as [buffer d1].
  simpl in H. by destruct buffer.
Qed.

(** X20.  A run of [_ping_loop] writes no report and no chart but those of
    its own task id: every other report and every other file of the
    processed directory is found again as it was. *)
Theorem ping_loop_writes_own_report_only (m : PingMonitor.t) (stamp : string)
    (trace : list tick) (exit_time : datetime) (d : Store.fs) :
  let d' := (_ping_loop m stamp trace exit_time d).1.2 in
  (∀ n, n ≠ Store.report_name (task_id m) →
        Store.reports d' !! n = Store.reports d !! n)
  ∧ (∀ n, n ≠ chart_name (task_id m) →
          Store.processed d' !! n = Store.processed d !! n).
Proof.
  intros d'. unfold d', _ping_loop.
  set (file_name := data_file_name (target_ip m) stamp).
  set (m' := set_data_file file_name m).
  set (end_time := default 0 (start_time m) + duration m).
  destruct (after_sampling_reports m' file_name end_time trace exit_time d)
    as [Hrep Hproc].
  set (d2 := after_sampling m' file_name end_time trace exit_time d) in *.
  unfold _generate_report. cbn [data_file m' set_data_file].
  destruct (Store.raw d2 !! file_name) as [f|]; cbn [fst snd];
    [|by rewrite Hrep, Hproc].
  destruct (length (Store.content f)) as [|len]; cbn [fst snd];
    [by rewrite Hrep, Hproc|].
  cbn [Store.reports Store.processed task_id]. split; intros n Hne.
  - rewrite lookup_insert_ne by done. by rewrite Hrep.
  - rewrite lookup_insert_ne by done. by rewrite Hproc.
Qed.

Lemma executed_before_deadline (end_time : datetime) (trace : list tick) :
  Forall (λ k, flag k = true ∧ now k < end_time) (executed end_time trace)
  ∧ (length (executed end_time trace) <= length trace)%nat.
Proof.
  induction trace as [|k trace [IH1 IH2]]; [by split; [constructor|]|].
  cbn [executed]. destruct (flag k) eqn:Hflag; simpl.
  - destruct (Z.ltb_spec (now k) end_time); simpl.
    + split; [by constructor|lia].
    + split; [constructor|lia].
  - split; [constructor|lia].
Qed.

(** X21.  When the series' name denotes a file of the raw directory, a
    run makes each of its probes after a guard evaluation that found the
    flag set and the clock before the deadline [start_time + duration], at
    most one probe per guard evaluation; it adds to its series one row per
    probe made, and every row it adds names the monitor's target. *)
Theorem ping_loop_probes_before_deadline (m : PingMonitor.t) (stamp : string)
    (trace : list tick) (exit_time : datetime) (d : Store.fs) :
  let file_name := data_file_name (target_ip m) stamp in
  let end_time := default 0 (start_time m) + duration m in
  let probes := executed end_time trace in
  let d' := (_ping_loop m stamp trace exit_time d).1.2 in
  Store.plain_name file_name →
  Forall (λ k, flag k = true ∧ now k < end_time) probes
  ∧ (length probes <= length trace)%nat
  ∧ length (series file_name d')
    = (length (series file_name d) + length probes)%nat
  ∧ Forall (λ p, target p = target_ip m)
           (drop (length (series file_name d)) (series file_name d')).
Proof.
  intros file_name end_time probes d' _.
  destruct (executed_before_deadline end_time trace) as [Hall Hlen].
  assert (series file_name d'
          = series file_name d ++ (point_of m <$> probes)) as ->.
  { unfold d'.
    rewrite (series_raw file_name _ _ (ping_loop_raw m stamp trace exit_time d)).
    apply (after_sampling_series (set_data_file file_name m)). }
  split; [done|]. split; [done|].
  split; [by rewrite length_app, length_fmap|].
  rewrite drop_app_length. apply Forall_fmap, Forall_true.
  intros k. unfold point_of. simpl. by destruct (answer k).
Qed.

Lemma ping_loop_probes_before_deadline_witness :
  let trace := Scenario.ticks Scenario.ok_at 0 3
               ++ [Tick false (3 * Scenario.second) (Returns PyNone);
                   Scenario.ok_at 4] in
  let probes := executed Scenario.hour trace in
  let d' := (_ping_loop Scenario.monitor1 Scenario.stamp1 trace
               (5 * Scenario.second) Store.empty_fs).1.2 in
  Forall (λ k, flag k = true ∧ now k < Scenario.hour) probes
  ∧ (length probes <= length trace)%nat
  ∧ length (series Scenario.file1 d')
    = (length (series Scenario.file1 Store.empty_fs) + length probes)%nat
  ∧ Forall (λ p, target p = target_ip Scenario.monitor1)
           (drop (length (series Scenario.file1 Store.empty_fs))
                 (series Scenario.file1 d')).
Proof.
  apply (ping_loop_probes_before_deadline Scenario.monitor1 Scenario.stamp1
           (Scenario.ticks Scenario.ok_at 0 3
            ++ [Tick false (3 * Scenario.second) (Returns PyNone);
                Scenario.ok_at 4])
           (5 * Scenario.second) Store.empty_fs).
  plain.
Defined.

Import TaskManager.

(** X22.  Before the deadline and with a clock not earlier than the
    watcher's start, the progress a wake-up writes is determined by the
    clock, the watcher's start and its duration alone.  Whenever the
    monitor's flag is set and the watcher's task has a record that is not
    completed (such a record is not shared with [completed_tasks]), the
    wake-up goes back to sleep having replaced, in that record, the
    progress by this value and the elapsed time by the whole seconds since
    the watcher's start, and nothing else: the id, the target, the
    duration, the status and the times of the record, every other record,
    the active set, [completed_tasks], the ceiling and the monitors are as
    they were. *)
Theorem watcher_progress_only (w : watcher) (now : datetime) :
  w_start_time w <= now →
  now < w_end_time w →
  ∃ p, ∀ (tm : TaskManager.t) (i : task_info),
    monitor_is_running (w_monitor w) tm = true →
    task_history tm !! w_task_id w = Some i →
    TaskManager.status i ≠ completed →
    _monitor_task w now tm
    = Sleeps
        {| max_concurrent_tasks := max_concurrent_tasks tm;
           active_tasks := active_tasks tm;
           completed_tasks := completed_tasks tm;
           task_history :=
             <[w_task_id w :=
                 {| id := id i;
                    TaskManager.target_ip := TaskManager.target_ip i;
                    duration_hours := duration_hours i;
                    TaskManager.start_time := TaskManager.start_time i;
                    TaskManager.status := TaskManager.status i;
                    progress := p;
                    elapsed := Some ((now - w_start_time w) `div` 1000000);
                    end_time := end_time i |}]> (task_history tm);
           objects := objects tm |}.
Proof.
  intros Hclock Hbefore.
  destruct (progress_of (now - w_start_time w) (w_duration_hours w))
    as [e|p] eqn:Hp.
  { exfalso. revert Hp. unfold progress_of.
    destruct (Z.eqb_spec (w_duration_hours w * 3600) 0) as [Hzero|_]; [|done].
    unfold w_end_time, timedelta_hours in Hbefore. lia. }
  exists p. intros tm i Hflag Hi _. unfold _monitor_task. rewrite Hflag.
  destruct (Z.geb_spec now (w_end_time w)); [lia|].
  cbv zeta. rewrite Hp. unfold update_progress. do 2 f_equal.
  apply map_eq. intros k. destruct (decide (k = w_task_id w)) as [->|Hne].
  - by rewrite lookup_alter, decide_True, Hi, lookup_insert_eq by done.
  - by rewrite lookup_alter_ne, lookup_insert_ne by done.
Qed.

Lemma watcher_progress_only_witness :
  let tm := (create_task Scenario.host 1 Scenario.uuid1 0 (init 5)).2 in
  ∃ p tm' i',
    _monitor_task Scenario.watcher1 (5 * Scenario.second) tm = Sleeps tm'
    ∧ task_history tm' !! Scenario.id1 = Some i'
    ∧ progress i' = p
    ∧ elapsed i' = Some 5
    ∧ TaskManager.status i' = running
    ∧ completed_tasks tm' = []
    ∧ active_tasks tm' = active_tasks tm.
Proof.
  destruct (watcher_progress_only Scenario.watcher1 (5 * Scenario.second))
    as [p Hp].
  - vm_compute. discriminate.
  - vm_compute. reflexivity.
  - exists p. eexists _, _. split.
    + apply (Hp (create_task Scenario.host 1 Scenario.uuid1 0 (init 5)).2
               {| id := Scenario.id1; TaskManager.target_ip := Scenario.host;
                  duration_hours := 1; TaskManager.start_time := 0;
                  TaskManager.status := running; progress := 0%float;
                  elapsed := None; end_time := None |}).
      * vm_compute. reflexivity.
      * vm_compute. reflexivity.
      * discriminate.
    + cbn [task_history]. split; [apply lookup_insert_eq|].
      repeat split.
Defined.

End Frames.

(** ** What stopping and creating leave alone *)

Section CallFrames.

Import TaskManager.

(** X23.  [stop_task] concerns one task only: whatever it answers, the
    ceiling and [completed_tasks] are as before, every other task keeps its
    record and its place in the active set, and every monitor other than
    the one registered under the id is left as it was. *)
Theorem stop_task_touches_one_task (task_id : string) (now : datetime) (tm : t) :
  let tm' := (stop_task task_id now tm).2 in
  max_concurrent_tasks tm' = max_concurrent_tasks tm
  ∧ completed_tasks tm' = completed_tasks tm
  ∧ (∀ k, k ≠ task_id →
          task_history tm' !! k = task_history tm !! k
          ∧ active_tasks tm' !! k = active_tasks tm !! k)
  ∧ (∀ h, active_tasks tm !! task_id ≠ Some h →
          objects tm' !! h = objects tm !! h).
Proof.
  intros tm'. unfold tm', stop_task.
  destruct (active_tasks tm !! task_id) as [monitor|] eqn:Hactive;
    [|by repeat split].
  cbn [task_history stop_object set_objects].
  assert (∀ h, Some monitor ≠ Some h →
               alter PingMonitor.stop monitor (objects tm) !! h
               = objects tm !! h) as Hobj.
  { intros h Hne. apply list_lookup_alter_ne. congruence. }
  destruct (task_history tm !! task_id) as [i|]; cbn.
  - repeat split; try done.
    + by rewrite lookup_insert_ne.
    + by rewrite lookup_delete_ne.
  - repeat split; done.
Qed.

Lemma create_task_one_clock (target : string) (hours : Z) (uuid : string)
    (now : datetime) (tm : t) :
  create_task_at target hours uuid now now now tm
  = create_task target hours uuid now tm.
Proof. reflexivity. Qed.

(** X24.  For a duration that [timedelta] accepts, an admitted
    [create_task] returns the new id, launches a watcher for it with the
    duration asked and the start time the watcher reads, adds one monitor
    at the end of the heap (for the target, the duration and the id, its
    flag raised, its start time the clock read by [start]), enters this
    monitor in the active set under the id and files under the id a record
    that says [running], progress 0, the target, the duration and the time
    read for the record, with no elapsed time and no end time; the
    ceiling, [completed_tasks], every other record, every other active
    entry and every monitor that existed are as before.  A refused one
    changes nothing. *)
Theorem create_task_touches_one_task (target : string) (hours : Z)
    (uuid : string) (recorded started watched : datetime) (tm : t) :
  timedelta_in_range hours →
  let r := create_task_at target hours uuid recorded started watched tm in
  if at_capacity tm then r = (inl MaxConcurrentTasks, tm)
  else
    r.1 = inr (short_id uuid,
               {| w_task_id := short_id uuid; w_monitor := length (objects tm);
                  w_duration_hours := hours; w_start_time := watched |})
    ∧ max_concurrent_tasks r.2 = max_concurrent_tasks tm
    ∧ completed_tasks r.2 = completed_tasks tm
    ∧ (∃ m, objects r.2 = objects tm ++ [m]
            ∧ PingMonitor.target_ip m = target
            ∧ PingMonitor.duration m = timedelta_hours hours
            ∧ PingMonitor.task_id m = short_id uuid
            ∧ PingMonitor.is_running m = true
            ∧ PingMonitor.start_time m = Some started)
    ∧ active_tasks r.2 = <[short_id uuid := length (objects tm)]> (active_tasks tm)
    ∧ task_history r.2
      = <[short_id uuid :=
            {| id := short_id uuid; target_ip := target;
               duration_hours := hours; start_time := recorded;
               status := running; progress := 0%float;
               elapsed := None; end_time := None |}]> (task_history tm).
Proof.
  intros _ r. unfold r, create_task_at. destruct (at_capacity tm); [done|].
  cbn. repeat split. eexists. repeat split.
Qed.

Lemma create_task_touches_one_task_witness :
  let tm := init 5 in
  let r := create_task_at Scenario.host 1 Scenario.uuid1 0 1 2 tm in
  r.1 = inr (Scenario.id1,
             {| w_task_id := Scenario.id1; w_monitor := 0%nat;
                w_duration_hours := 1; w_start_time := 2 |})
  ∧ max_concurrent_tasks r.2 = max_concurrent_tasks tm
  ∧ completed_tasks r.2 = completed_tasks tm
  ∧ (∃ m, objects r.2 = objects tm ++ [m]
          ∧ PingMonitor.target_ip m = Scenario.host
          ∧ PingMonitor.duration m = timedelta_hours 1
          ∧ PingMonitor.task_id m = Scenario.id1
          ∧ PingMonitor.is_running m = true
          ∧ PingMonitor.start_time m = Some 1)
  ∧ active_tasks r.2 = <[Scenario.id1 := 0%nat]> (active_tasks tm)
  ∧ task_history r.2
    = <[Scenario.id1 :=
          {| id := Scenario.id1; target_ip := Scenario.host;
             duration_hours := 1; start_time := 0;
             status := running; progress := 0%float;
             elapsed := None; end_time := None |}]> (task_history tm).
Proof.
  apply (create_task_touches_one_task Scenario.host 1 Scenario.uuid1 0 1 2
           (init 5)).
  unfold timedelta_in_range. vm_compute. split; discriminate.
Defined.

End CallFrames.
